(** * Event manager: attendee and organiser routes

    A shallow embedding of [routes/attendee.js], [routes/organiser.js] and
    of the tables of [db_schema.sql], with the properties of the booking
    engine, the event lifecycle, the organiser gate and the site settings.

    Conventions of the embedding.
    - A JavaScript string is the list of its UTF-16 code units.
    - A JavaScript number that holds a ticket count or an id is an exact
      integer ([Z]), which is what JavaScript computes below 2^53; [NaN]
      is the [None] of [option Z].
    - A REAL column (a cost) is an exact rational ([Q]); no statement
      below depends on rounding.
    - An INTEGER column holds an integer, an id of a route ([:id], the
      [organiser_id] of the login form) is the integer that SQLite compares
      with the key column.
    - A route handler is a function from the request and the database to a
      response and the database after it: the callbacks of [global.db.get],
      [global.db.all] and [global.db.run] are sequenced in the order in
      which the source nests them. A statement the schema makes fail (a
      foreign key without its row) yields [NextErr], the [next(err)] of
      the source. *)

From Stdlib Require Import ZArith NArith QArith List Sorted Lia.
From stdpp Require Import base numbers option list strings gmap fin_maps.

Local Open Scope Z_scope.

(* ===================================================================== *)
(** ** JavaScript strings *)
(* ===================================================================== *)

Module JS.

(** A string value: its UTF-16 code units. *)
Abbreviation jsstring := (list N).

(** A literal of the source, written with the characters of the source. *)
Definition str (s : string) : jsstring :=
  map Ascii.N_of_ascii (String.list_ascii_of_string s).

(** The code units that [String.prototype.trim] and [parseInt] skip:
    WhiteSpace and LineTerminator of ECMA-262. *)
Definition is_white_space (c : N) : bool :=
  (match c with
   | 9 | 10 | 11 | 12 | 13 | 32 | 160 | 5760 | 8232 | 8233 | 8239 | 8287
   | 12288 | 65279 => true
   | _ => (8192 <=? c) && (c <=? 8202)
   end)%N.

Fixpoint trimStart (s : jsstring) : jsstring :=
  match s with
  | c :: s' => if is_white_space c then trimStart s' else s
  | [] => []
  end.

Definition trimEnd (s : jsstring) : jsstring := rev (trimStart (rev s)).

(** [s.trim()] *)
Definition trim (s : jsstring) : jsstring := trimEnd (trimStart s).

(** The value of a code unit as a digit, for the radixes up to 36. *)
Definition digit_value (c : N) : option Z :=
  if ((48 <=? c) && (c <=? 57))%N then Some (Z.of_N c - 48)
  else if ((97 <=? c) && (c <=? 122))%N then Some (Z.of_N c - 87)
  else if ((65 <=? c) && (c <=? 90))%N then Some (Z.of_N c - 55)
  else None.

Definition radix_digit (R : Z) (c : N) : option Z :=
  match digit_value c with
  | Some d => if d <? R then Some d else None
  | None => None
  end.

(** The longest prefix of [s] made of radix-[R] digits. *)
Fixpoint digits_prefix (R : Z) (s : jsstring) : list Z :=
  match s with
  | c :: s' =>
      match radix_digit R c with
      | Some d => d :: digits_prefix R s'
      | None => []
      end
  | [] => []
  end.

Definition math_int (R : Z) (ds : list Z) : Z :=
  fold_left (fun acc d => acc * R + d) ds 0.

(** [parseInt(s)] with no radix argument (ECMA-262, 19.2.5): leading white
    space is skipped, then an optional sign, then an optional [0x] or [0X],
    then the longest run of digits; what follows is ignored. No digit at
    all gives [NaN]. *)
Definition parseInt (s : jsstring) : option Z :=
  let S0 := trimStart s in
  let '(sign, S1) :=
    match S0 with
    | c :: S' =>
        if (c =? 45)%N then (-1, S')
        else if (c =? 43)%N then (1, S')
        else (1, S0)
    | [] => (1, S0)
    end in
  let '(R, S2) :=
    match S1 with
    | 48%N :: x :: S' =>
        if ((x =? 120) || (x =? 88))%N then (16, S') else (10, S1)
    | _ => (10, S1)
    end in
  match digits_prefix R S2 with
  | [] => None
  | ds => Some (sign * math_int R ds)
  end.

(** A request field that may be missing: [undefined] or a string. *)
Abbreviation field := (option jsstring).

(** [ToString] of such a field, as [parseInt] applies it to its argument. *)
Definition ToString (v : field) : jsstring :=
  match v with
  | Some s => s
  | None => str "undefined"
  end.

(** [n || 0] on a number: [NaN] and both zeros are falsy. *)
Definition or_zero (n : option Z) : Z :=
  match n with
  | Some z => z
  | None => 0
  end.

(** [!v] on a field: [undefined] and the empty string are falsy. *)
Definition falsy (v : field) : bool :=
  match v with
  | Some (_ :: _) => false
  | _ => true
  end.

(** [a === b] on two fields. *)
Definition strict_eq (a b : field) : bool := bool_decide (a = b).

(** [s.includes(c)] for a one-character [c]. *)
Definition includes (c : N) (s : jsstring) : bool := existsb (N.eqb c) s.

(** [s.replace(c, d)] for a one-character [c]: the first occurrence only. *)
Fixpoint replace (c : N) (d : jsstring) (s : jsstring) : jsstring :=
  match s with
  | x :: s' => if (x =? c)%N then d ++ s' else x :: replace c d s'
  | [] => []
  end.

(** [s.substring(0, n)] *)
Definition substring0 (n : nat) (s : jsstring) : jsstring := take n s.

(** Code-unit order on strings, the order of [ORDER BY] on the TEXT columns
    of the schema (for the characters below the surrogates). *)
Fixpoint str_leb (a b : jsstring) : bool :=
  match a, b with
  | [], _ => true
  | _ :: _, [] => false
  | x :: a', y :: b' =>
      if (x <? y)%N then true else if (y <? x)%N then false else str_leb a' b'
  end.

End JS.

Import JS.

(* ===================================================================== *)
(** ** The tables of [db_schema.sql] *)
(* ===================================================================== *)

(** [events.status]: the two values the routes write. *)
Inductive event_status := draft | published.

Global Instance event_status_eq_dec : EqDecision event_status.
Proof. solve_decision. Defined.

(** A row of [organisers]; the key [organiser_id] is the key of the map. *)
Record organiser := {
  name : jsstring;
  o_description : jsstring
}.

(** The row of [site_settings]. *)
Record settings := {
  site_name : jsstring;
  site_description : jsstring
}.

(** The columns of [events] that the event form edits. *)
Record event_fields := {
  title : jsstring;
  description : jsstring;
  event_date : jsstring;
  full_price_tickets : Z;
  full_price_cost : Q;
  concession_tickets : Z;
  concession_cost : Q
}.

(** A row of [events]; the key [event_id] is the key of the map. *)
Record event := {
  fields : event_fields;
  status : event_status;
  organiser_id : option Z;
  created_date : jsstring;
  published_date : option jsstring;
  last_modified : jsstring
}.

(** A row of [bookings]. *)
Record booking := {
  booking_id : Z;
  event_id : Z;
  attendee_name : jsstring;
  full_price_tickets_booked : Z;
  concession_tickets_booked : Z;
  total_cost : Q;
  booking_date : jsstring
}.

(** The database. [site_settings] is the row with [setting_id = 1], the
    only one that the schema and [INSERT OR REPLACE ... VALUES (1, ?, ?)]
    ever write. [bookings] is in insertion order. The two counters are the
    [sqlite_sequence] entries of the AUTOINCREMENT keys. Foreign keys are
    enforced ([PRAGMA foreign_keys=ON] in [index.js]). *)
Record db := {
  organisers : gmap Z organiser;
  site_settings : option settings;
  events : gmap Z event;
  bookings : list booking;
  events_seq : Z;
  bookings_seq : Z
}.

Definition set_events (f : gmap Z event -> gmap Z event) (d : db) : db :=
  {| organisers := organisers d; site_settings := site_settings d;
     events := f (events d); bookings := bookings d;
     events_seq := events_seq d; bookings_seq := bookings_seq d |}.

(** The next AUTOINCREMENT key: one more than the largest key ever used. *)
Definition next_rowid (seq : Z) (keys : list Z) : Z :=
  1 + foldr Z.max seq keys.

(** [SELECT ... ORDER BY]: insertion sort by a column. *)
Fixpoint insert_by {A} (le : A -> A -> bool) (x : A) (l : list A) : list A :=
  match l with
  | [] => [x]
  | y :: l' => if le x y then x :: l else y :: insert_by le x l'
  end.

Definition order_by {A} (le : A -> A -> bool) (l : list A) : list A :=
  foldr (insert_by le) [] l.

(** The bookings of an event (the join [e.event_id = b.event_id]). *)
Definition bookings_of (d : db) (id : Z) : list booking :=
  filter (fun b => event_id b = id) (bookings d).

(** [COALESCE(SUM(b.column), 0)] over the bookings of an event. *)
Definition sum_booked (column : booking -> Z) (d : db) (id : Z) : Z :=
  foldr Z.add 0 (map column (bookings_of d id)).

(** A row of the event queries of [attendee.js]: [e.*] and the two sums. *)
Record event_row := {
  row_event_id : Z;
  row_event : event;
  full_booked : Z;
  concession_booked : Z
}.

Definition join_bookings (d : db) (id : Z) (e : event) : event_row :=
  {| row_event_id := id; row_event := e;
     full_booked := sum_booked full_price_tickets_booked d id;
     concession_booked := sum_booked concession_tickets_booked d id |}.

(** [INSERT INTO bookings (event_id, attendee_name, full_price_tickets_booked,
    concession_tickets_booked, total_cost) VALUES (?, ?, ?, ?, ?)];
    [booking_date] defaults to CURRENT_TIMESTAMP. *)
Definition insert_booking (now : jsstring) (id : Z) (who : jsstring)
    (full concession : Z) (cost : Q) (d : db) : db :=
  let key := next_rowid (bookings_seq d) (map booking_id (bookings d)) in
  {| organisers := organisers d; site_settings := site_settings d;
     events := events d;
     bookings := bookings d ++
       [{| booking_id := key; event_id := id; attendee_name := who;
           full_price_tickets_booked := full;
           concession_tickets_booked := concession;
           total_cost := cost; booking_date := now |}];
     events_seq := events_seq d; bookings_seq := key |}.

(* ===================================================================== *)
(** ** Responses *)
(* ===================================================================== *)

(** The rows of the organiser dashboard: the join with [organisers]. *)
Record published_row := {
  p_row : event_row;
  p_organiser_name : option jsstring
}.

Record draft_row := {
  d_event_id : Z;
  d_event : event;
  d_organiser_name : option jsstring
}.

(** The booking shown by [booking-confirmation.ejs]. *)
Module Confirmation.
Record t := {
  attendee_name : jsstring;
  full_price_tickets_booked : Z;
  concession_tickets_booked : Z;
  total_cost : Q
}.
End Confirmation.

(** The event shown by [edit-event.ejs]: the blank event of the creation
    form, or a row of [events]. *)
Inductive edit_view :=
| blank_view (f : event_fields)
| row_view (id : Z) (e : event).

Inductive response :=
| Send (code : Z) (body : jsstring)           (* res.status(code).send(body) *)
| Redirect (url : jsstring)                   (* res.redirect(url) *)
| NextErr                                     (* next(err) *)
| RenderAttendeeHome (settings_ : settings) (events_ : list event_row)
| RenderAttendeeEvent (event_ : event_row)
    (full_available concession_available : Z)
| RenderBookingConfirmation (event_ : event_row) (booking_ : Confirmation.t)
| RenderOrganiserLogin (error : option jsstring)
    (organisers_ : list (Z * jsstring))
| RenderOrganiserHome (currentOrganiser : option organiser)
    (settings_ : settings) (publishedEvents : list published_row)
    (draftEvents : list draft_row) (successMessage : option jsstring)
| RenderSiteSettings (settings_ : settings)
| RenderEditEvent (event_ : edit_view).

(* ===================================================================== *)
(** ** [routes/attendee.js] *)
(* ===================================================================== *)

Module Attendee.

(** [req.body] of [POST /attendee/book/:id]. *)
Module BookBody.
Record t := {
  attendee_name : field;
  full_price_tickets : field;
  concession_tickets : field
}.
End BookBody.

(** The fallback of [GET /attendee/] for a missing settings row. *)
Definition fallback_settings : settings :=
  {| site_name := str "Event Manager";
     site_description := str "Book your events" |}.

(** [SELECT e.*, sums FROM events e LEFT JOIN bookings b ...
    WHERE e.status = 'published' GROUP BY e.event_id
    ORDER BY e.event_date ASC] *)
Definition eventsQuery (d : db) : list event_row :=
  order_by
    (fun a b => str_leb (event_date (fields (row_event a)))
                        (event_date (fields (row_event b))))
    (map (fun kv => join_bookings d kv.1 kv.2)
       (filter (fun kv => status kv.2 = published)
          (map_to_list (events d)))).

(** [SELECT e.*, sums FROM events e LEFT JOIN bookings b ...
    WHERE e.event_id = ? AND e.status = 'published' GROUP BY e.event_id]:
    the text of [eventQuery] and of [checkQuery]. *)
Definition eventQuery (d : db) (eventId : Z) : option event_row :=
  match events d !! eventId with
  | Some e =>
      match status e with
      | published => Some (join_bookings d eventId e)
      | draft => None
      end
  | None => None
  end.

Definition checkQuery := eventQuery.

(** [router.get("/")] *)
Definition home (d : db) : response :=
  RenderAttendeeHome
    (match site_settings d with
     | Some settings => settings
     | None => fallback_settings
     end)
    (eventsQuery d).

(** [router.get("/event/:id")] *)
Definition event_page (eventId : Z) (d : db) : response :=
  match eventQuery d eventId with
  | None => Send 404 (str "Event not found or not published")
  | Some event =>
      let full_available :=
        full_price_tickets (fields (row_event event)) - full_booked event in
      let concession_available :=
        concession_tickets (fields (row_event event))
        - concession_booked event in
      RenderAttendeeEvent event full_available concession_available
  end.

(** [parseInt(v) || 0] *)
Definition wanted (v : field) : Z := or_zero (parseInt (ToString v)).

(** [router.post("/book/:id")]; [now] is CURRENT_TIMESTAMP at the insert. *)
Definition book (now : jsstring) (eventId : Z) (body : BookBody.t) (d : db)
    : response * db :=
  match BookBody.attendee_name body with
  | None => (Send 400 (str "Attendee name is required"), d)
  | Some attendee_name =>
      if falsy (Some attendee_name) || bool_decide (trim attendee_name = [])
      then (Send 400 (str "Attendee name is required"), d)
      else
        let fullWanted := wanted (BookBody.full_price_tickets body) in
        let concessionWanted := wanted (BookBody.concession_tickets body) in
        if fullWanted + concessionWanted =? 0
        then (Send 400 (str "Please select at least one ticket"), d)
        else
          match checkQuery d eventId with
          | None => (Send 404 (str "Event not found"), d)
          | Some event =>
              let e := fields (row_event event) in
              let fullAvailable := full_price_tickets e - full_booked event in
              let concessionAvailable :=
                concession_tickets e - concession_booked event in
              if (fullWanted >? fullAvailable)
                 || (concessionWanted >? concessionAvailable)
              then (Send 400 (str "Not enough tickets available"), d)
              else
                let totalCost :=
                  (inject_Z fullWanted * full_price_cost e
                   + inject_Z concessionWanted * concession_cost e)%Q in
                (RenderBookingConfirmation event
                   {| Confirmation.attendee_name := trim attendee_name;
                      Confirmation.full_price_tickets_booked := fullWanted;
                      Confirmation.concession_tickets_booked :=
                        concessionWanted;
                      Confirmation.total_cost := totalCost |},
                 insert_booking now eventId (trim attendee_name)
                   fullWanted concessionWanted totalCost d)
          end
  end.

End Attendee.

(* ===================================================================== *)
(** ** [routes/organiser.js] *)
(* ===================================================================== *)

Module Organiser.

(** [process.env]: the two passwords, each of which may be unset. *)
Record env := {
  ORGANISER_PASSWORD_1 : field;
  ORGANISER_PASSWORD_2 : field
}.

(** [ORGANISER_PASSWORDS[organiser_id]]: the object has the keys 1 and 2;
    any other key reads [undefined]. *)
Definition ORGANISER_PASSWORDS (e : env) (organiser_id : Z) : field :=
  if organiser_id =? 1 then ORGANISER_PASSWORD_1 e
  else if organiser_id =? 2 then ORGANISER_PASSWORD_2 e
  else None.

(** [req.session]: a property that was never set reads [undefined], that
    is [false] for [isAuthenticated] and [None] for the others. *)
Record session := {
  isAuthenticated : bool;
  organiserId : option Z;
  organiserName : option jsstring
}.

Definition no_session : session :=
  {| isAuthenticated := false; organiserId := None; organiserName := None |}.

(** Truthiness of [req.session.organiserId]: a number other than 0. *)
Definition truthy_id (v : option Z) : bool :=
  match v with
  | Some n => negb (n =? 0)
  | None => false
  end.

(** [formatDateForDatabase] *)
Definition formatDateForDatabase (dateString : jsstring) : jsstring :=
  if falsy (Some dateString) then dateString
  else if includes 32 dateString && (length dateString =? 19)%nat
  then dateString
  else if includes 84 dateString
  then replace 84 (str " ") dateString ++ str ":00"
  else dateString.

(** [formatDateForInput] *)
Definition formatDateForInput (dateString : jsstring) : jsstring :=
  if falsy (Some dateString) then str ""
  else if includes 84 dateString && (length dateString =? 16)%nat
  then dateString
  else if includes 32 dateString
  then replace 32 (str "T") (substring0 16 dateString)
  else dateString.

(** [requireAuth]: [next] is the route behind the gate. *)
Definition requireAuth (s : session) (d : db) (next : response * db)
    : response * db :=
  if isAuthenticated s && truthy_id (organiserId s)
  then next
  else (Redirect (str "/organiser/login"), d).

(** [SELECT organiser_id, name FROM organisers ORDER BY name] *)
Definition organisersQuery (d : db) : list (Z * jsstring) :=
  order_by (fun a b => str_leb a.2 b.2)
    (map (fun kv => (kv.1, name kv.2)) (map_to_list (organisers d))).

(** [router.get("/login")] *)
Definition login_page (s : session) (d : db) : response :=
  if isAuthenticated s then Redirect (str "/organiser")
  else RenderOrganiserLogin None (organisersQuery d).

(** [req.body] of [POST /organiser/login]; [organiser_id] is the key that
    an option of the form submits, in decimal. *)
Module LoginBody.
Record t := {
  password : field;
  organiser_id : Z
}.
End LoginBody.

(** [router.post("/login")] *)
Definition login (e : env) (body : LoginBody.t) (s : session) (d : db)
    : response * session :=
  match organisers d !! LoginBody.organiser_id body with
  | None =>
      (RenderOrganiserLogin (Some (str "Invalid organiser selected.")) [], s)
  | Some organiser =>
      let expectedPassword :=
        ORGANISER_PASSWORDS e (LoginBody.organiser_id body) in
      if strict_eq (LoginBody.password body) expectedPassword
      then (Redirect (str "/organiser"),
            {| isAuthenticated := true;
               organiserId := Some (LoginBody.organiser_id body);
               organiserName := Some (name organiser) |})
      else (RenderOrganiserLogin
              (Some (str "Incorrect password. Please try again."))
              (organisersQuery d), s)
  end.

(** [router.post("/logout")] *)
Definition logout (s : session) : response * session :=
  (Redirect (str "/"), no_session).

(** The join [LEFT JOIN organisers o ON e.organiser_id = o.organiser_id]. *)
Definition organiser_name_of (d : db) (e : event) : option jsstring :=
  match organiser_id e with
  | Some k => name <$> organisers d !! k
  | None => None
  end.

Definition publishedQuery (d : db) : list published_row :=
  order_by
    (fun a b => str_leb (event_date (fields (row_event (p_row a))))
                        (event_date (fields (row_event (p_row b)))))
    (map (fun kv => {| p_row := join_bookings d kv.1 kv.2;
                       p_organiser_name := organiser_name_of d kv.2 |})
       (filter (fun kv => status kv.2 = published)
          (map_to_list (events d)))).

(** [... WHERE e.status = 'draft' ORDER BY e.created_date DESC] *)
Definition draftQuery (d : db) : list draft_row :=
  order_by
    (fun a b => str_leb (created_date (d_event b)) (created_date (d_event a)))
    (map (fun kv => {| d_event_id := kv.1; d_event := kv.2;
                       d_organiser_name := organiser_name_of d kv.2 |})
       (filter (fun kv => status kv.2 = draft)
          (map_to_list (events d)))).

(** The fallback of the dashboard for a missing settings row. *)
Definition dashboard_fallback_settings : settings :=
  {| site_name := str "Event Manager";
     site_description := str "Manage your events" |}.

(** The fallback of the settings form for a missing settings row. *)
Definition form_fallback_settings : settings :=
  {| site_name := str ""; site_description := str "" |}.

(** The handler of [router.get("/")]; [updated] is [req.query.updated]. *)
Definition home_handler (updated : field) (s : session) (d : db) : response :=
  let organiser :=
    match organiserId s with
    | Some k => organisers d !! k
    | None => None
    end in
  let successMessage :=
    if falsy updated then None
    else Some (str "Event updated successfully!") in
  RenderOrganiserHome organiser
    (match site_settings d with
     | Some settings => settings
     | None => dashboard_fallback_settings
     end)
    (publishedQuery d) (draftQuery d) successMessage.

(** The handler of [router.get("/settings")] *)
Definition settings_page_handler (d : db) : response :=
  RenderSiteSettings
    (match site_settings d with
     | Some settings => settings
     | None => form_fallback_settings
     end).

(** [req.body] of [POST /organiser/settings]. *)
Module SettingsBody.
Record t := {
  site_name : field;
  site_description : field
}.
End SettingsBody.

(** The handler of [router.post("/settings")] *)
Definition settings_handler (body : SettingsBody.t) (d : db) : response * db :=
  match SettingsBody.site_name body, SettingsBody.site_description body with
  | Some (c :: n), Some (c' :: n') =>
      (Redirect (str "/organiser"),
       {| organisers := organisers d;
          site_settings :=
            Some {| site_name := c :: n; site_description := c' :: n' |};
          events := events d; bookings := bookings d;
          events_seq := events_seq d; bookings_seq := bookings_seq d |})
  | _, _ => (Send 400 (str "All fields are required"), d)
  end.

(** The blank event of [router.get("/create-event")] *)
Definition blankEvent : event_fields :=
  {| title := str ""; description := str ""; event_date := str "";
     full_price_tickets := 0; full_price_cost := 0;
     concession_tickets := 0; concession_cost := 0 |}.

(** [req.body] of the event form. A numeric field is the number that its
    column stores for it; [None] is a missing or an empty field. *)
Module EventBody.
Record t := {
  title : field;
  description : field;
  event_date : field;
  full_price_tickets : option Z;
  full_price_cost : option Q;
  concession_tickets : option Z;
  concession_cost : option Q
}.
End EventBody.

(** The validation and the parameters shared by the two event forms:
    [None] when a required field is missing. *)
Definition event_params (body : EventBody.t) : option event_fields :=
  match EventBody.title body, EventBody.description body,
        EventBody.event_date body with
  | Some (c1 :: t1), Some (c2 :: t2), Some (c3 :: t3) =>
      Some {| title := c1 :: t1; description := c2 :: t2;
              event_date := formatDateForDatabase (c3 :: t3);
              full_price_tickets := default 0 (EventBody.full_price_tickets body);
              full_price_cost := default 0%Q (EventBody.full_price_cost body);
              concession_tickets := default 0 (EventBody.concession_tickets body);
              concession_cost := default 0%Q (EventBody.concession_cost body) |}
  | _, _, _ => None
  end.

(** The handler of [router.post("/create-event")] *)
Definition create_event_handler (now : jsstring) (body : EventBody.t)
    (s : session) (d : db) : response * db :=
  match event_params body with
  | None => (Send 400 (str "Title, description, and event date are required"), d)
  | Some params =>
      let referenced :=
        match organiserId s with
        | Some k => bool_decide (is_Some (organisers d !! k))
        | None => true
        end in
      if referenced then
        let key := next_rowid (events_seq d) (map fst (map_to_list (events d))) in
        (Redirect (str "/organiser"),
         {| organisers := organisers d; site_settings := site_settings d;
            events :=
              <[key := {| fields := params; status := draft;
                          organiser_id := organiserId s;
                          created_date := now; published_date := None;
                          last_modified := now |}]> (events d);
            bookings := bookings d;
            events_seq := key; bookings_seq := bookings_seq d |})
      else (NextErr, d)
  end.

(** The handler of [router.get("/edit-event/:id")] *)
Definition edit_event_page_handler (eventId : Z) (d : db) : response :=
  match events d !! eventId with
  | None => Send 404 (str "Event not found")
  | Some event =>
      let f := fields event in
      let event_date' :=
        if falsy (Some (event_date f)) then event_date f
        else formatDateForInput (event_date f) in
      RenderEditEvent (row_view eventId
        {| fields :=
             {| title := title f; description := description f;
                event_date := event_date';
                full_price_tickets := full_price_tickets f;
                full_price_cost := full_price_cost f;
                concession_tickets := concession_tickets f;
                concession_cost := concession_cost f |};
           status := status event; organiser_id := organiser_id event;
           created_date := created_date event;
           published_date := published_date event;
           last_modified := last_modified event |})
  end.

(** [UPDATE events SET title = ?, ..., last_modified = CURRENT_TIMESTAMP
    WHERE event_id = ?] on the row it matches. *)
Definition update_row (now : jsstring) (params : event_fields) (e : event)
    : event :=
  {| fields := params; status := status e; organiser_id := organiser_id e;
     created_date := created_date e; published_date := published_date e;
     last_modified := now |}.

(** The handler of [router.post("/edit-event/:id")] *)
Definition edit_event_handler (now : jsstring) (eventId : Z)
    (body : EventBody.t) (d : db) : response * db :=
  match event_params body with
  | None => (Send 400 (str "Title, description, and event date are required"), d)
  | Some params =>
      (Redirect (str "/organiser?updated=true"),
       set_events (alter (update_row now params) eventId) d)
  end.

(** [UPDATE events SET status = 'published', published_date =
    CURRENT_TIMESTAMP WHERE event_id = ? AND status = 'draft'] on the row
    with that key. *)
Definition publish_row (now : jsstring) (e : event) : event :=
  match status e with
  | draft =>
      {| fields := fields e; status := published;
         organiser_id := organiser_id e; created_date := created_date e;
         published_date := Some now; last_modified := last_modified e |}
  | published => e
  end.

(** The handler of [router.post("/publish-event/:id")] *)
Definition publish_event_handler (now : jsstring) (eventId : Z) (d : db)
    : response * db :=
  (Redirect (str "/organiser"),
   set_events (alter (publish_row now) eventId) d).

(** [DELETE FROM events WHERE event_id = ?], with the cascade of
    [FOREIGN KEY (event_id) REFERENCES events(event_id) ON DELETE CASCADE]
    on the bookings of the deleted row. *)
Definition delete_event (eventId : Z) (d : db) : db :=
  match events d !! eventId with
  | Some _ =>
      {| organisers := organisers d; site_settings := site_settings d;
         events := delete eventId (events d);
         bookings := filter (fun b => event_id b <> eventId) (bookings d);
         events_seq := events_seq d; bookings_seq := bookings_seq d |}
  | None => d
  end.

(** The handler of [router.post("/delete-event/:id")] *)
Definition delete_event_handler (eventId : Z) (d : db) : response * db :=
  (Redirect (str "/organiser"), delete_event eventId d).

(** The routes registered with [requireAuth], with their requests. *)
Inductive request :=
| GetHome (updated : field)
| GetSettings
| PostSettings (body : SettingsBody.t)
| GetCreateEvent
| PostCreateEvent (body : EventBody.t)
| GetEditEvent (eventId : Z)
| PostEditEvent (eventId : Z) (body : EventBody.t)
| PostPublishEvent (eventId : Z)
| PostDeleteEvent (eventId : Z).

(** The handler that the router runs after the gate. *)
Definition handler (now : jsstring) (r : request) (s : session) (d : db)
    : response * db :=
  match r with
  | GetHome updated => (home_handler updated s d, d)
  | GetSettings => (settings_page_handler d, d)
  | PostSettings body => settings_handler body d
  | GetCreateEvent => (RenderEditEvent (blank_view blankEvent), d)
  | PostCreateEvent body => create_event_handler now body s d
  | GetEditEvent eventId => (edit_event_page_handler eventId d, d)
  | PostEditEvent eventId body => edit_event_handler now eventId body d
  | PostPublishEvent eventId => publish_event_handler now eventId d
  | PostDeleteEvent eventId => delete_event_handler eventId d
  end.

(** [router.METHOD(path, requireAuth, handler)] *)
Definition route (now : jsstring) (r : request) (s : session) (d : db)
    : response * db :=
  requireAuth s d (handler now r s d).

End Organiser.

(* ===================================================================== *)
(** ** Derived values and the database of [db_schema.sql] *)
(* ===================================================================== *)

(** The availability of an event: for each ticket type, the capacity minus
    the tickets of that type over all the bookings of the event. *)
Definition availability (d : db) (id : Z) : option (Z * Z) :=
  match events d !! id with
  | Some e =>
      Some (full_price_tickets (fields e)
              - sum_booked full_price_tickets_booked d id,
            concession_tickets (fields e)
              - sum_booked concession_tickets_booked d id)
  | None => None
  end.

(** The settings object that a page is rendered with. *)
Definition shown_settings (r : response) : option settings :=
  match r with
  | RenderAttendeeHome s _ => Some s
  | RenderOrganiserHome _ s _ _ _ => Some s
  | RenderSiteSettings s => Some s
  | _ => None
  end.

(** The database that [db_schema.sql] builds at the time [built]. *)
Definition schema_db (built : jsstring) : db :=
  {| organisers :=
       <[1 := {| name := str "Sarah Johnson";
                 o_description := str "Lead Yoga Instructor and Studio Manager" |}]>
       (<[2 := {| name := str "Mike Chen";
                  o_description := str "Assistant Instructor and Event Coordinator" |}]> ∅);
     site_settings :=
       Some {| site_name := str "Fun Yoga";
               site_description := str "All kinds of yoga for all ages" |};
     events :=
       <[1 := {| fields :=
                   {| title := str "Yoga Kids Workshop";
                      description := str "Beginner friendly kids yoga session";
                      event_date := str "2025-07-15 10:00:00";
                      full_price_tickets := 20; full_price_cost := 25;
                      concession_tickets := 10; concession_cost := 15 |};
                 status := published; organiser_id := Some 1;
                 created_date := built; published_date := Some built;
                 last_modified := built |}]>
       (<[2 := {| fields :=
                    {| title := str "Yoga Adults Workshop";
                       description := str "Beginner friendly adults yoga session";
                       event_date := str "2025-07-20 14:00:00";
                       full_price_tickets := 30; full_price_cost := 15;
                       concession_tickets := 15; concession_cost := 10 |};
                  status := draft; organiser_id := Some 2;
                  created_date := built; published_date := None;
                  last_modified := built |}]>
       (<[3 := {| fields :=
                    {| title := str "Puppy Yoga";
                       description := str "Yoga with cute puppies";
                       event_date := str "2025-07-10 09:00:00";
                       full_price_tickets := 15; full_price_cost := 40;
                       concession_tickets := 5; concession_cost := 30 |};
                  status := published; organiser_id := Some 1;
                  created_date := built; published_date := Some built;
                  last_modified := built |}]> ∅));
     bookings :=
       [ {| booking_id := 1; event_id := 1;
            attendee_name := str "Alice Benson";
            full_price_tickets_booked := 2; concession_tickets_booked := 1;
            total_cost := 65; booking_date := built |};
         {| booking_id := 2; event_id := 3;
            attendee_name := str "Bob Carrey";
            full_price_tickets_booked := 1; concession_tickets_booked := 0;
            total_cost := 40; booking_date := built |} ];
     events_seq := 3;
     bookings_seq := 2 |}.

(** The same database without its settings row. *)
Definition without_settings (d : db) : db :=
  {| organisers := organisers d; site_settings := None;
     events := events d; bookings := bookings d;
     events_seq := events_seq d; bookings_seq := bookings_seq d |}.

(** The same database with one more organiser. *)
Definition with_organiser (k : Z) (o : organiser) (d : db) : db :=
  {| organisers := <[k := o]> (organisers d); site_settings := site_settings d;
     events := events d; bookings := bookings d;
     events_seq := events_seq d; bookings_seq := bookings_seq d |}.

(** A sequence of booking requests, each handled before the next. *)
Fixpoint book_all (reqs : list (jsstring * Z * Attendee.BookBody.t)) (d : db)
    : db :=
  match reqs with
  | [] => d
  | (now, eventId, body) :: reqs' =>
      book_all reqs' (Attendee.book now eventId body d).2
  end.

(** Some concrete values for the examples. *)
Definition t0 : jsstring := str "2025-07-01 12:00:00".
Definition t1 : jsstring := str "2025-07-02 09:30:00".

Definition sarah : Organiser.session :=
  {| Organiser.isAuthenticated := true;
     Organiser.organiserId := Some 1;
     Organiser.organiserName := Some (str "Sarah Johnson") |}.

Definition passwords : Organiser.env :=
  {| Organiser.ORGANISER_PASSWORD_1 := Some (str "sarah_admin_2025");
     Organiser.ORGANISER_PASSWORD_2 := Some (str "mike_coordinator_2025") |}.

Definition book_body (who full concession : string) : Attendee.BookBody.t :=
  {| Attendee.BookBody.attendee_name := Some (str who);
     Attendee.BookBody.full_price_tickets := Some (str full);
     Attendee.BookBody.concession_tickets := Some (str concession) |}.


Definition guest : organiser :=
  {| name := str "Guest Teacher"; o_description := str "Visiting instructor" |}.

Definition guest_session : Organiser.session :=
  {| Organiser.isAuthenticated := true;
     Organiser.organiserId := Some 3;
     Organiser.organiserName := Some (str "Guest Teacher") |}.

Definition event_body (title description event_date : string)
    : Organiser.EventBody.t :=
  {| Organiser.EventBody.title := Some (str title);
     Organiser.EventBody.description := Some (str description);
     Organiser.EventBody.event_date := Some (str event_date);
     Organiser.EventBody.full_price_tickets := Some 12;
     Organiser.EventBody.full_price_cost := Some 20%Q;
     Organiser.EventBody.concession_tickets := Some 4;
     Organiser.EventBody.concession_cost := Some 10%Q |}.

(** The form of the first event of the schema with other capacities. *)
Definition kids_body (full concession : Z) : Organiser.EventBody.t :=
  {| Organiser.EventBody.title := Some (str "Yoga Kids Workshop");
     Organiser.EventBody.description :=
       Some (str "Beginner friendly kids yoga session");
     Organiser.EventBody.event_date := Some (str "2025-07-15T10:00");
     Organiser.EventBody.full_price_tickets := Some full;
     Organiser.EventBody.full_price_cost := Some 25%Q;
     Organiser.EventBody.concession_tickets := Some concession;
     Organiser.EventBody.concession_cost := Some 15%Q |}.

Definition settings_body (site_name site_description : string)
    : Organiser.SettingsBody.t :=
  {| Organiser.SettingsBody.site_name := Some (str site_name);
     Organiser.SettingsBody.site_description := Some (str site_description) |}.

(* ===================================================================== *)
(** ** Examples *)
(* ===================================================================== *)

Example parseInt_12 : parseInt (str " 12px") = Some 12.
Proof. reflexivity. Qed.

Example parseInt_neg : parseInt (str "-5") = Some (-5).
Proof. reflexivity. Qed.

Example parseInt_hex : parseInt (str "0x1f") = Some 31.
Proof. reflexivity. Qed.

Example parseInt_undefined : parseInt (ToString None) = None.
Proof. reflexivity. Qed.

Example trim_ex : trim (str "  Bob Carrey ") = str "Bob Carrey".
Proof. reflexivity. Qed.

(** Scenario 1 of the specification: Puppy Yoga, 15 full-price tickets, one
    booked; a request for one more succeeds and 13 remain. *)
Example scenario_1 :
  availability (schema_db t0) 3 = Some (14, 5) /\
  availability (Attendee.book t1 3 (book_body "Carol" "1" "0") (schema_db t0)).2 3
  = Some (13, 5).
Proof. split; vm_compute; reflexivity. Qed.

(** Scenario 2: a request for 20 full-price tickets is refused. *)
Example scenario_2 :
  Attendee.book t1 3 (book_body "Carol" "20" "0") (schema_db t0)
  = (Send 400 (str "Not enough tickets available"), schema_db t0).
Proof. vm_compute. reflexivity. Qed.

(* ===================================================================== *)
(** ** The booking engine *)
(* ===================================================================== *)

Section Booking.

Import Attendee.

Lemma sum_snoc (l : list Z) (x : Z) :
  foldr Z.add 0 (l ++ [x]) = foldr Z.add 0 l + x.
Proof. induction l as [|y l IH]; simpl; lia. Qed.

Lemma bookings_of_insert now id who full conc cost d :
  bookings_of (insert_booking now id who full conc cost d) id
  = bookings_of d id ++
    [{| booking_id := next_rowid (bookings_seq d) (map booking_id (bookings d));
        event_id := id; attendee_name := who;
        full_price_tickets_booked := full;
        concession_tickets_booked := conc;
        total_cost := cost; booking_date := now |}].
Proof.
  unfold bookings_of, insert_booking; simpl.
  rewrite filter_app, filter_cons_True by reflexivity.
  reflexivity.
Qed.

Lemma bookings_of_insert_ne now id who full conc cost d j :
  j <> id ->
  bookings_of (insert_booking now id who full conc cost d) j = bookings_of d j.
Proof.
  intros Hne. unfold bookings_of, insert_booking; simpl.
  rewrite filter_app, filter_cons_False by (simpl; congruence).
  rewrite filter_nil. apply app_nil_r.
Qed.

Lemma availability_insert now id who full conc cost d :
  availability (insert_booking now id who full conc cost d) id
  = (fun a : Z * Z => (a.1 - full, a.2 - conc)) <$> availability d id.
Proof.
  unfold availability, sum_booked. rewrite bookings_of_insert.
  change (events (insert_booking now id who full conc cost d)) with (events d).
  destruct (events d !! id) as [e|]; [|reflexivity].
  rewrite !map_app. cbn [map]. rewrite !sum_snoc. simpl. do 2 f_equal; lia.
Qed.

Lemma availability_insert_ne now id who full conc cost d j :
  j <> id ->
  availability (insert_booking now id who full conc cost d) j
  = availability d j.
Proof.
  intros Hne. unfold availability, sum_booked.
  rewrite bookings_of_insert_ne by assumption. reflexivity.
Qed.

(** What a successful booking is: the case analysis of the handler. *)
Lemma book_success now eventId body d ev bk d' :
  book now eventId body d = (RenderBookingConfirmation ev bk, d') ->
  exists who e,
    BookBody.attendee_name body = Some who /\
    trim who <> [] /\
    events d !! eventId = Some e /\ status e = published /\
    ev = join_bookings d eventId e /\
    let full := wanted (BookBody.full_price_tickets body) in
    let conc := wanted (BookBody.concession_tickets body) in
    let cost := (inject_Z full * full_price_cost (fields e)
                 + inject_Z conc * concession_cost (fields e))%Q in
    full + conc <> 0 /\
    full <= full_price_tickets (fields e)
            - sum_booked full_price_tickets_booked d eventId /\
    conc <= concession_tickets (fields e)
            - sum_booked concession_tickets_booked d eventId /\
    bk = {| Confirmation.attendee_name := trim who;
            Confirmation.full_price_tickets_booked := full;
            Confirmation.concession_tickets_booked := conc;
            Confirmation.total_cost := cost |} /\
    d' = insert_booking now eventId (trim who) full conc cost d.
Proof.
  unfold book, checkQuery, eventQuery.
  destruct (BookBody.attendee_name body) as [who|]; [|discriminate].
  destruct (falsy (Some who) || bool_decide (trim who = [])) eqn:Hname;
    [discriminate|].
  apply orb_false_elim in Hname as [_ Htrim].
  apply bool_decide_eq_false in Htrim.
  destruct (_ + _ =? 0) eqn:Hsum; [discriminate|].
  apply Z.eqb_neq in Hsum.
  destruct (events d !! eventId) as [e|] eqn:He; [|discriminate].
  destruct (status e) eqn:Hst; [discriminate|].
  cbv zeta.
  destruct (_ || _) eqn:Havail; [discriminate|].
  apply orb_false_elim in Havail as [Hf Hc].
  simpl in Hf, Hc.
  intros [= <- <- <-].
  exists who, e. repeat split; try assumption; try reflexivity; lia.
Qed.

(** Every other outcome of the handler leaves the database as it was. *)
Lemma book_cases now eventId body d :
  (exists ev bk, (book now eventId body d).1 = RenderBookingConfirmation ev bk)
  \/ ((book now eventId body d).2 = d /\
      ((book now eventId body d).1 = Send 400 (str "Attendee name is required")
       \/ (book now eventId body d).1
          = Send 400 (str "Please select at least one ticket")
       \/ (book now eventId body d).1 = Send 404 (str "Event not found")
       \/ (book now eventId body d).1
          = Send 400 (str "Not enough tickets available"))).
Proof.
  unfold book.
  destruct (BookBody.attendee_name body) as [who|]; [|right; auto].
  destruct (falsy (Some who) || bool_decide (trim who = [])); [right; auto|].
  destruct (_ + _ =? 0); [right; auto|].
  destruct (checkQuery d eventId) as [event|]; [|right; auto 6].
  cbv zeta. destruct (_ || _); [right; auto 6|].
  left. eauto.
Qed.



(** Non-negative availability of every event is an invariant of the
    booking handler, whatever the request and its outcome. *)
Lemma book_preserves_nonneg now eventId body d :
  (forall j f c, availability d j = Some (f, c) -> 0 <= f /\ 0 <= c) ->
  forall j f c,
    availability (book now eventId body d).2 j = Some (f, c) ->
    0 <= f /\ 0 <= c.
Proof.
  intros Hinv j f c.
  destruct (book_cases now eventId body d) as [(ev & bk & Hr)|[-> _]];
    [|apply Hinv].
  destruct (book now eventId body d) as [r d'] eqn:Hbook. simpl in Hr |- *.
  subst r.
  destruct (book_success _ _ _ _ _ _ _ Hbook)
    as (who & e & _ & _ & He & _ & _ & _ & Hfull & Hconc & _ & ->).
  destruct (decide (j = eventId)) as [->|Hne].
  - rewrite availability_insert. unfold availability. rewrite He. simpl.
    intros [= <- <-]. lia.
  - rewrite availability_insert_ne by assumption. apply Hinv.
Qed.

(** The same over any sequence of requests handled one after the other. *)
Lemma book_all_preserves_nonneg reqs d :
  (forall j f c, availability d j = Some (f, c) -> 0 <= f /\ 0 <= c) ->
  forall j f c,
    availability (book_all reqs d) j = Some (f, c) -> 0 <= f /\ 0 <= c.
Proof.
  revert d. induction reqs as [|[[now eventId] body] reqs IH]; intros d Hinv.
  - exact Hinv.
  - simpl. apply IH. apply book_preserves_nonneg. exact Hinv.
Qed.

(** Scenario 3: an empty name is refused before the event is looked up. *)
Example scenario_3 :
  book t1 3 (book_body "" "1" "0") (schema_db t0)
  = (Send 400 (str "Attendee name is required"), schema_db t0) /\
  book t1 77 (book_body "" "1" "0") (schema_db t0)
  = (Send 400 (str "Attendee name is required"), schema_db t0).
Proof. vm_compute. split; reflexivity. Qed.

(** *** [trim] *)

Lemma trimStart_spec (s : jsstring) :
  exists l,
    s = l ++ trimStart s /\
    Forall (fun c => is_white_space c = true) l /\
    (forall c t, trimStart s = c :: t -> is_white_space c = false).
Proof.
  induction s as [|x s (l & Hs & Hl & Hhd)]; simpl.
  - exists []. repeat split; [constructor | discriminate].
  - destruct (is_white_space x) eqn:Hx.
    + exists (x :: l). repeat split.
      * simpl. congruence.
      * constructor; assumption.
      * exact Hhd.
    + exists []. repeat split; [constructor|].
      intros c t [= <- _]. exact Hx.
Qed.

Lemma trimEnd_spec (s : jsstring) :
  exists r,
    s = trimEnd s ++ r /\
    Forall (fun c => is_white_space c = true) r /\
    (forall t c, trimEnd s = t ++ [c] -> is_white_space c = false).
Proof.
  unfold trimEnd.
  destruct (trimStart_spec (rev s)) as (l & Hs & Hl & Hhd).
  exists (rev l). repeat split.
  - rewrite <- rev_app_distr, <- Hs. symmetry. apply rev_involutive.
  - apply Forall_forall. intros c Hc. rewrite Forall_forall in Hl.
    apply Hl. apply list_elem_of_In. apply in_rev.
    apply list_elem_of_In. exact Hc.
  - intros t c Ht. apply (Hhd c (rev t)).
    rewrite <- (rev_involutive (trimStart (rev s))), Ht, rev_app_distr.
    reflexivity.
Qed.

(** [trim] removes a run of white space at each end, and what is left
    neither begins nor ends with white space. *)
Lemma trim_spec (s : jsstring) :
  exists l r,
    s = l ++ trim s ++ r /\
    Forall (fun c => is_white_space c = true) l /\
    Forall (fun c => is_white_space c = true) r /\
    (forall c t, trim s = c :: t -> is_white_space c = false) /\
    (forall t c, trim s = t ++ [c] -> is_white_space c = false).
Proof.
  unfold trim.
  destruct (trimStart_spec s) as (l & Hs & Hl & Hhd).
  destruct (trimEnd_spec (trimStart s)) as (r & Hu & Hr & Hlast).
  exists l, r. repeat split; try assumption.
  - rewrite <- Hu. exact Hs.
  - intros c t Ht. rewrite Ht in Hu. apply (Hhd c (t ++ r)). exact Hu.
Qed.

(** C9. The name of a successful booking, in the row that is inserted and
    on the confirmation page alike, is the submitted name without the white
    space at its two ends. *)
Theorem book_trims_attendee_name now eventId body d ev bk d' :
  book now eventId body d = (RenderBookingConfirmation ev bk, d') ->
  exists submitted l r b,
    BookBody.attendee_name body = Some submitted /\
    submitted = l ++ trim submitted ++ r /\
    Forall (fun c => is_white_space c = true) l /\
    Forall (fun c => is_white_space c = true) r /\
    (forall c t, trim submitted = c :: t -> is_white_space c = false) /\
    (forall t c, trim submitted = t ++ [c] -> is_white_space c = false) /\
    bookings d' = bookings d ++ [b] /\
    attendee_name b = trim submitted /\
    Confirmation.attendee_name bk = trim submitted.
Proof.
  intros Hbook.
  destruct (book_success _ _ _ _ _ _ _ Hbook)
    as (who & e & Hwho & _ & _ & _ & _ & _ & _ & _ & -> & ->).
  destruct (trim_spec who) as (l & r & Hsplit & Hl & Hr & Hhd & Hlast).
  exists who, l, r. eexists.
  repeat split; try eassumption; reflexivity.
Qed.

Lemma book_trims_attendee_name_witness :
  exists submitted l r b,
    BookBody.attendee_name (book_body "  Carol Diaz " "1" "0") = Some submitted /\
    submitted = l ++ trim submitted ++ r /\
    Forall (fun c => is_white_space c = true) l /\
    Forall (fun c => is_white_space c = true) r /\
    (forall c t, trim submitted = c :: t -> is_white_space c = false) /\
    (forall t c, trim submitted = t ++ [c] -> is_white_space c = false) /\
    bookings (book t1 3 (book_body "  Carol Diaz " "1" "0") (schema_db t0)).2
    = bookings (schema_db t0) ++ [b] /\
    attendee_name b = trim submitted /\
    Confirmation.attendee_name
      {| Confirmation.attendee_name := str "Carol Diaz";
         Confirmation.full_price_tickets_booked := 1;
         Confirmation.concession_tickets_booked := 0;
         Confirmation.total_cost := 40 |}
    = trim submitted.
Proof.
  eapply (book_trims_attendee_name t1 3 (book_body "  Carol Diaz " "1" "0")
            (schema_db t0)).
  vm_compute. reflexivity.
Defined.

(** *** The parsing of the ticket counts *)


Lemma wanted_unparsable (s : jsstring) :
  parseInt s = None -> wanted (Some s) = 0.
Proof. unfold wanted. simpl. intros ->. reflexivity. Qed.





(** C2 at the request [full_price_tickets=-2&concession_tickets=1] for the
    first event of the schema: [parseInt] reads [-2], the sum [-1] is not
    [0], [-2] is not more than the 18 tickets left, and the booking is
    inserted with [-2] full-price tickets and a cost of [-35]. *)
Theorem book_negative_count :
  wanted (BookBody.full_price_tickets (book_body "Bob" "-2" "1")) = -2 /\
  exists ev d',
    book t1 1 (book_body "Bob" "-2" "1") (schema_db t0)
    = (RenderBookingConfirmation ev
         {| Confirmation.attendee_name := str "Bob";
            Confirmation.full_price_tickets_booked := -2;
            Confirmation.concession_tickets_booked := 1;
            Confirmation.total_cost := -35 |}, d') /\
    bookings d'
    = bookings (schema_db t0) ++
      [{| booking_id := 3; event_id := 1; attendee_name := str "Bob";
          full_price_tickets_booked := -2; concession_tickets_booked := 1;
          total_cost := -35; booking_date := t1 |}] /\
    availability (schema_db t0) 1 = Some (18, 9) /\
    availability d' 1 = Some (20, 8).
Proof.
  split; [reflexivity|].
  eexists _, _. split; [vm_compute; reflexivity|].
  repeat split; vm_compute; reflexivity.
Qed.

End Booking.

(* ===================================================================== *)
(** ** Events that are not published *)
(* ===================================================================== *)

Section Unpublished.

Import Attendee.


Lemma eventQuery_Some d eventId row :
  eventQuery d eventId = Some row ->
  exists e, events d !! eventId = Some e /\ status e = published /\
            row = join_bookings d eventId e.
Proof.
  unfold eventQuery.
  destruct (events d !! eventId) as [e|]; [|discriminate].
  destruct (status e) eqn:Hst; [discriminate|].
  intros [= <-]. eauto.
Qed.

(** The detail page is rendered for published events only. *)
Lemma event_page_rendered d eventId row fa ca :
  event_page eventId d = RenderAttendeeEvent row fa ca ->
  exists e, events d !! eventId = Some e /\ status e = published.
Proof.
  unfold event_page.
  destruct (eventQuery d eventId) as [row'|] eqn:Hq; [|discriminate].
  intros _. destruct (eventQuery_Some _ _ _ Hq) as (e & He & Hst & _). eauto.
Qed.




End Unpublished.

(* ===================================================================== *)
(** ** The event lifecycle *)
(* ===================================================================== *)

Section Lifecycle.

Import Organiser.

Lemma requireAuth_pass s d k next :
  isAuthenticated s = true -> organiserId s = Some k -> k <> 0 ->
  requireAuth s d next = next.
Proof.
  intros Ha Hk Hne. unfold requireAuth. rewrite Ha, Hk. simpl.
  apply Z.eqb_neq in Hne. rewrite Hne. reflexivity.
Qed.

Lemma set_events_same f d : f (events d) = events d -> set_events f d = d.
Proof. intros H. unfold set_events. rewrite H. destruct d; reflexivity. Qed.

Example formatDateForDatabase_local :
  formatDateForDatabase (str "2025-08-01T18:30") = str "2025-08-01 18:30:00".
Proof. reflexivity. Qed.

Example formatDateForInput_stored :
  formatDateForInput (str "2025-08-01 18:30:00") = str "2025-08-01T18:30".
Proof. reflexivity. Qed.

(** C4. For an authenticated organiser, publishing answers with the
    redirect to the dashboard in every case; a draft event becomes
    published with the current time as its publication date; an event that
    is already published, or an id without an event, leaves the whole
    database as it was, publication date included; no other event, no
    booking, no organiser and no setting changes. *)
Theorem publish_event_spec now eventId s k d :
  isAuthenticated s = true -> organiserId s = Some k -> k <> 0 ->
  exists d',
    route now (PostPublishEvent eventId) s d
    = (Redirect (str "/organiser"), d') /\
    (forall e, events d !! eventId = Some e -> status e = draft ->
       events d' !! eventId
       = Some {| fields := fields e; status := published;
                 organiser_id := organiser_id e;
                 created_date := created_date e;
                 published_date := Some now;
                 last_modified := last_modified e |}) /\
    ((forall e, events d !! eventId = Some e -> status e = published) ->
     d' = d) /\
    (forall j, j <> eventId -> events d' !! j = events d !! j) /\
    organisers d' = organisers d /\ site_settings d' = site_settings d /\
    bookings d' = bookings d.
Proof.
  intros Ha Hk Hne. eexists. split.
  - unfold route. rewrite (requireAuth_pass s d k) by assumption. reflexivity.
  - repeat split.
    + intros e He Hst. simpl. rewrite lookup_alter_eq, He. simpl.
      unfold publish_row. rewrite Hst. reflexivity.
    + intros Hpub. apply set_events_same. apply alter_id.
      intros e He. unfold publish_row. rewrite (Hpub e He). reflexivity.
    + intros j Hj. simpl. apply lookup_alter_ne. congruence.
Qed.

Lemma publish_event_spec_witness :
  exists d',
    route t1 (PostPublishEvent 2) sarah (schema_db t0)
    = (Redirect (str "/organiser"), d') /\
    (forall e, events (schema_db t0) !! 2 = Some e -> status e = draft ->
       events d' !! 2
       = Some {| fields := fields e; status := published;
                 organiser_id := organiser_id e;
                 created_date := created_date e;
                 published_date := Some t1;
                 last_modified := last_modified e |}) /\
    ((forall e, events (schema_db t0) !! 2 = Some e -> status e = published) ->
     d' = schema_db t0) /\
    (forall j, j <> 2 -> events d' !! j = events (schema_db t0) !! j) /\
    organisers d' = organisers (schema_db t0) /\
    site_settings d' = site_settings (schema_db t0) /\
    bookings d' = bookings (schema_db t0).
Proof.
  apply (publish_event_spec t1 2 sarah 1 (schema_db t0));
    [reflexivity | reflexivity | lia].
Defined.

(** Scenario 4 of the specification: publishing the published first event
    of the schema a second time changes nothing. *)
Example scenario_4 :
  route t1 (PostPublishEvent 1) sarah (schema_db t0)
  = (Redirect (str "/organiser"), schema_db t0).
Proof. vm_compute. reflexivity. Qed.

Lemma bookings_of_delete eventId d j :
  j <> eventId -> bookings_of (delete_event eventId d) j = bookings_of d j.
Proof.
  intros Hj. unfold delete_event, bookings_of.
  destruct (events d !! eventId); [|reflexivity]. simpl.
  apply list_filter_filter_l. intros b Hb. congruence.
Qed.

Lemma bookings_of_deleted eventId (l : list booking) :
  filter (fun b => event_id b = eventId)
    (filter (fun b => event_id b <> eventId) l) = [].
Proof.
  induction l as [|b l IH]; [reflexivity|].
  rewrite (filter_cons (fun b => event_id b <> eventId)).
  destruct (decide (event_id b <> eventId)) as [Hb|Hb]; [|exact IH].
  rewrite filter_cons_False by (intros Heq; exact (Hb Heq)). exact IH.
Qed.

(** C5. For an authenticated organiser, deleting an event that exists, in
    either state, removes its row and every booking of it, and leaves every
    other event, the bookings of every other event, the organisers and the
    settings as they were. *)
Theorem delete_event_spec now eventId s k d e :
  isAuthenticated s = true -> organiserId s = Some k -> k <> 0 ->
  events d !! eventId = Some e ->
  exists d',
    route now (PostDeleteEvent eventId) s d
    = (Redirect (str "/organiser"), d') /\
    events d' !! eventId = None /\
    bookings_of d' eventId = [] /\
    (forall b, b ∈ bookings d' <-> b ∈ bookings d /\ event_id b <> eventId) /\
    (forall j, j <> eventId -> events d' !! j = events d !! j) /\
    (forall j, j <> eventId -> bookings_of d' j = bookings_of d j) /\
    organisers d' = organisers d /\ site_settings d' = site_settings d.
Proof.
  intros Ha Hk Hne He. exists (delete_event eventId d). split.
  - unfold route. rewrite (requireAuth_pass s d k) by assumption. reflexivity.
  - assert (Hd : delete_event eventId d
                 = {| organisers := organisers d;
                      site_settings := site_settings d;
                      events := delete eventId (events d);
                      bookings :=
                        filter (fun b => event_id b <> eventId) (bookings d);
                      events_seq := events_seq d;
                      bookings_seq := bookings_seq d |}).
    { unfold delete_event. rewrite He. reflexivity. }
    rewrite Hd. clear Hd. split; [apply lookup_delete_eq|].
    split; [apply bookings_of_deleted|].
    split; [intros b; simpl; rewrite list_elem_of_filter; tauto|].
    split; [intros j Hj; simpl; apply lookup_delete_ne; congruence|].
    split; [|split; reflexivity].
    intros j Hj. unfold bookings_of. simpl.
    apply list_filter_filter_l. intros b Hb. congruence.
Qed.

Lemma delete_event_spec_witness :
  exists d',
    route t1 (PostDeleteEvent 3) sarah (schema_db t0)
    = (Redirect (str "/organiser"), d') /\
    events d' !! 3 = None /\
    bookings_of d' 3 = [] /\
    (forall b, b ∈ bookings d' <-> b ∈ bookings (schema_db t0) /\ event_id b <> 3) /\
    (forall j, j <> 3 -> events d' !! j = events (schema_db t0) !! j) /\
    (forall j, j <> 3 -> bookings_of d' j = bookings_of (schema_db t0) j) /\
    organisers d' = organisers (schema_db t0) /\
    site_settings d' = site_settings (schema_db t0).
Proof.
  eapply (delete_event_spec t1 3 sarah 1 (schema_db t0));
    [reflexivity | reflexivity | lia | vm_compute; reflexivity].
Defined.

(** Scenario 6 of the specification, on the first event of the schema with
    a second booking made for it: both bookings go with the event, the
    booking of the third event stays. *)
Example scenario_6 :
  let d := (Attendee.book t1 1 (book_body "Carol" "1" "1") (schema_db t0)).2 in
  map booking_id (bookings d) = [1; 2; 3] /\
  map booking_id (bookings_of d 1) = [1; 3] /\
  map booking_id
    (bookings (route t1 (PostDeleteEvent 1) sarah d).2) = [2].
Proof. vm_compute. auto. Qed.

(** *** Editing an event that does not exist *)

(** The form of an event that does not exist is answered 404. *)
Lemma edit_event_page_missing now eventId s k d :
  isAuthenticated s = true -> organiserId s = Some k -> k <> 0 ->
  events d !! eventId = None ->
  route now (GetEditEvent eventId) s d
  = (Send 404 (str "Event not found"), d).
Proof.
  intros Ha Hk Hne He. unfold route.
  rewrite (requireAuth_pass s d k) by assumption.
  simpl. unfold edit_event_page_handler. rewrite He. reflexivity.
Qed.

(** Its submission updates no row, and is answered with the redirect that
    makes the dashboard announce an update. *)
Lemma edit_event_missing now eventId body params s k d :
  isAuthenticated s = true -> organiserId s = Some k -> k <> 0 ->
  events d !! eventId = None ->
  event_params body = Some params ->
  route now (PostEditEvent eventId body) s d
  = (Redirect (str "/organiser?updated=true"), d).
Proof.
  intros Ha Hk Hne He Hbody. unfold route.
  rewrite (requireAuth_pass s d k) by assumption.
  simpl. unfold edit_event_handler. rewrite Hbody.
  rewrite set_events_same; [reflexivity|].
  apply alter_id'. exact He.
Qed.

(** C6 at the id 99, which the schema does not have, with the three
    required fields filled in: the form is answered 404, its submission is
    answered with the redirect to [/organiser?updated=true], on which the
    dashboard shows the message of a successful update; the database is as
    it was. *)
Theorem edit_missing_event_reports_success :
  events (schema_db t0) !! 99 = None /\
  route t1 (GetEditEvent 99) sarah (schema_db t0)
  = (Send 404 (str "Event not found"), schema_db t0) /\
  route t1
    (PostEditEvent 99 (event_body "Chair Yoga" "Seated session" "2025-08-01T18:30"))
    sarah (schema_db t0)
  = (Redirect (str "/organiser?updated=true"), schema_db t0) /\
  exists o st p dr,
    route t1 (GetHome (Some (str "true"))) sarah (schema_db t0)
    = (RenderOrganiserHome o st p dr
         (Some (str "Event updated successfully!")), schema_db t0).
Proof.
  split; [vm_compute; reflexivity|].
  split; [vm_compute; reflexivity|].
  split; [vm_compute; reflexivity|].
  eexists _, _, _, _. vm_compute. reflexivity.
Qed.

End Lifecycle.

(* ===================================================================== *)
(** ** The site settings *)
(* ===================================================================== *)

Section Settings.

Import Organiser.

(** C7, as stated, fails: without a settings row, the dashboard and the
    settings form are not rendered with the fallback of the attendee
    page. *)
Lemma fallback_settings_differ :
  ~ (forall now s k d updated,
       isAuthenticated s = true -> organiserId s = Some k -> k <> 0 ->
       site_settings d = None ->
       let fallback :=
         Some {| site_name := str "Event Manager";
                 site_description := str "Book your events" |} in
       shown_settings (Attendee.home d) = fallback /\
       shown_settings (route now (GetHome updated) s d).1 = fallback /\
       shown_settings (route now GetSettings s d).1 = fallback).
Proof.
  intros H.
  destruct (H t1 sarah 1 (without_settings (schema_db t0)) None
              eq_refl eq_refl ltac:(lia) eq_refl) as (_ & Hhome & _).
  vm_compute in Hhome. discriminate.
Qed.

(** C7, amended. Without a settings row, each page is rendered with the
    fallback written in its own route: the attendee page with
    [Event Manager] and [Book your events], the dashboard with
    [Event Manager] and [Manage your events], the settings form with two
    empty strings. *)
Theorem missing_settings_fallbacks now s k d updated :
  isAuthenticated s = true -> organiserId s = Some k -> k <> 0 ->
  site_settings d = None ->
  shown_settings (Attendee.home d)
  = Some {| site_name := str "Event Manager";
            site_description := str "Book your events" |} /\
  shown_settings (route now (GetHome updated) s d).1
  = Some {| site_name := str "Event Manager";
            site_description := str "Manage your events" |} /\
  shown_settings (route now GetSettings s d).1
  = Some {| site_name := str ""; site_description := str "" |}.
Proof.
  intros Ha Hk Hne Hnone. unfold route.
  rewrite !(requireAuth_pass s d k) by assumption.
  unfold Attendee.home. simpl.
  unfold settings_page_handler. rewrite Hnone. auto.
Qed.

Lemma missing_settings_fallbacks_witness :
  shown_settings (Attendee.home (without_settings (schema_db t0)))
  = Some {| site_name := str "Event Manager";
            site_description := str "Book your events" |} /\
  shown_settings
    (route t1 (GetHome None) sarah (without_settings (schema_db t0))).1
  = Some {| site_name := str "Event Manager";
            site_description := str "Manage your events" |} /\
  shown_settings
    (route t1 GetSettings sarah (without_settings (schema_db t0))).1
  = Some {| site_name := str ""; site_description := str "" |}.
Proof.
  apply (missing_settings_fallbacks t1 sarah 1
           (without_settings (schema_db t0)) None);
    [reflexivity | reflexivity | lia | reflexivity].
Defined.

(** With a settings row, the three pages show that row. *)
Lemma stored_settings_shown now s k d updated row :
  isAuthenticated s = true -> organiserId s = Some k -> k <> 0 ->
  site_settings d = Some row ->
  shown_settings (Attendee.home d) = Some row /\
  shown_settings (route now (GetHome updated) s d).1 = Some row /\
  shown_settings (route now GetSettings s d).1 = Some row.
Proof.
  intros Ha Hk Hne Hrow. unfold route.
  rewrite !(requireAuth_pass s d k) by assumption.
  unfold Attendee.home. simpl.
  unfold settings_page_handler. rewrite Hrow. auto.
Qed.

End Settings.

(* ===================================================================== *)
(** ** The organiser gate and the login *)
(* ===================================================================== *)

Section Gate.

Import Organiser.



(** The session that a login creates passes the gate, unless the key of
    the organiser is 0. *)
Lemma login_session_passes e body s d s' now r :
  login e body s d = (Redirect (str "/organiser"), s') ->
  LoginBody.organiser_id body <> 0 ->
  route now r s' d = handler now r s' d.
Proof.
  unfold login.
  destruct (organisers d !! LoginBody.organiser_id body) as [o|];
    [|discriminate].
  destruct (strict_eq _ _); [|discriminate].
  intros [= <-] Hne. unfold route, requireAuth. simpl.
  apply Z.eqb_neq in Hne. rewrite Hne. reflexivity.
Qed.

(** Only the keys 1 and 2 have a password. *)
Lemma ORGANISER_PASSWORDS_other e k :
  k <> 1 -> k <> 2 -> ORGANISER_PASSWORDS e k = None.
Proof.
  intros H1 H2. unfold ORGANISER_PASSWORDS.
  apply Z.eqb_neq in H1, H2. rewrite H1, H2. reflexivity.
Qed.

(** With no password for the organiser, every password that is submitted
    is answered with the message of an incorrect password, and the session
    stays as it was. *)
Lemma login_unconfigured_string e k p o s d :
  organisers d !! k = Some o ->
  ORGANISER_PASSWORDS e k = None ->
  login e {| LoginBody.password := Some p; LoginBody.organiser_id := k |} s d
  = (RenderOrganiserLogin
       (Some (str "Incorrect password. Please try again."))
       (organisersQuery d), s).
Proof.
  intros Ho Hpw. unfold login. simpl. rewrite Ho, Hpw. reflexivity.
Qed.

(** With no password for the organiser, a request without a [password]
    field logs in. *)
Lemma login_unconfigured_missing_field e k o s d :
  organisers d !! k = Some o ->
  ORGANISER_PASSWORDS e k = None ->
  login e {| LoginBody.password := None; LoginBody.organiser_id := k |} s d
  = (Redirect (str "/organiser"),
     {| isAuthenticated := true; organiserId := Some k;
        organiserName := Some (name o) |}).
Proof.
  intros Ho Hpw. unfold login. simpl. rewrite Ho, Hpw. reflexivity.
Qed.

(** C10 at a third organiser, for whom no password is configured, and a
    login request without a [password] field: [undefined === undefined]
    holds, the session is authenticated for the organiser, and the gate
    lets it through. A request with a password, whatever it is, fails. *)
Theorem login_without_password_field :
  let d := with_organiser 3 guest (schema_db t0) in
  organisers d !! 3 = Some guest /\
  ORGANISER_PASSWORDS passwords 3 = None /\
  login passwords
    {| LoginBody.password := None; LoginBody.organiser_id := 3 |}
    no_session d
  = (Redirect (str "/organiser"), guest_session) /\
  route t1 (PostDeleteEvent 1) guest_session d
  = handler t1 (PostDeleteEvent 1) guest_session d /\
  login passwords
    {| LoginBody.password := Some (str ""); LoginBody.organiser_id := 3 |}
    no_session d
  = (RenderOrganiserLogin
       (Some (str "Incorrect password. Please try again."))
       (organisersQuery d), no_session).
Proof. vm_compute. repeat split. Qed.

(** Scenario 5 of the specification. *)
Example scenario_5 :
  login passwords
    {| LoginBody.password := Some (str "mike_coordinator_2025");
       LoginBody.organiser_id := 2 |} no_session (schema_db t0)
  = (Redirect (str "/organiser"),
     {| isAuthenticated := true; organiserId := Some 2;
        organiserName := Some (str "Mike Chen") |}) /\
  (login passwords
     {| LoginBody.password := Some (str "mike"); LoginBody.organiser_id := 2 |}
     no_session (schema_db t0)).2 = no_session.
Proof. vm_compute. split; reflexivity. Qed.

End Gate.

(* ===================================================================== *)
(** ** The two date formats of the event form *)
(* ===================================================================== *)

Section Dates.

Import Organiser.

Lemma includes_cons (c x : N) (s : jsstring) :
  includes c (x :: s) = (c =? x)%N || includes c s.
Proof. reflexivity. Qed.

Lemma replace_length (c d : N) (s : jsstring) :
  length (replace c [d] s) = length s.
Proof.
  induction s as [|x s IH]; simpl; [reflexivity|].
  destruct (x =? c)%N; simpl; congruence.
Qed.

Lemma replace_includes (c d : N) (s : jsstring) :
  includes c s = true -> includes d (replace c [d] s) = true.
Proof.
  induction s as [|x s IH]; [discriminate|].
  rewrite includes_cons. simpl replace.
  destruct (x =? c)%N eqn:Hx.
  - intros _. simpl. rewrite N.eqb_refl. reflexivity.
  - rewrite N.eqb_sym, Hx. simpl orb. intros Hs.
    rewrite includes_cons, (IH Hs). apply orb_true_r.
Qed.

(** Replacing the first [c] by [d] and then the first [d] by [c] gives the
    string back when it had no [d]. *)
Lemma replace_undo (c d : N) (s : jsstring) :
  includes d s = false -> replace d [c] (replace c [d] s) = s.
Proof.
  induction s as [|x s IH]; [reflexivity|].
  rewrite includes_cons. intros Hd. apply orb_false_elim in Hd as [Hx Hs].
  simpl replace. destruct (x =? c)%N eqn:Hc.
  - apply N.eqb_eq in Hc. subst x. simpl. rewrite N.eqb_refl. reflexivity.
  - simpl. rewrite N.eqb_sym, Hx. rewrite (IH Hs). reflexivity.
Qed.

Lemma falsy_length (s : jsstring) :
  (0 < length s)%nat -> falsy (Some s) = false.
Proof. destruct s; simpl; [lia | reflexivity]. Qed.

(** The database format of a value of a [datetime-local] input (16
    characters with a [T] and no space) is the value with its first [T]
    made a space and [:00] appended. *)
Lemma formatDateForDatabase_of_input (s : jsstring) :
  length s = 16%nat -> includes 84 s = true -> includes 32 s = false ->
  formatDateForDatabase s = replace 84 [32%N] s ++ str ":00".
Proof.
  intros Hlen HT Hsp. unfold formatDateForDatabase.
  rewrite falsy_length by lia. rewrite Hsp, HT. reflexivity.
Qed.

(** X1. A value of a [datetime-local] input that is stored and then shown
    again in the event form is the value that was entered. *)
Theorem date_input_round_trip (s : jsstring) :
  length s = 16%nat -> includes 84 s = true -> includes 32 s = false ->
  formatDateForInput (formatDateForDatabase s) = s.
Proof.
  intros Hlen HT Hsp. rewrite formatDateForDatabase_of_input by assumption.
  unfold formatDateForInput.
  rewrite falsy_length by (rewrite length_app; simpl; lia).
  assert (Hl : length (replace 84 [32%N] s ++ str ":00") = 19%nat).
  { rewrite length_app, replace_length, Hlen. reflexivity. }
  rewrite Hl. simpl Nat.eqb. rewrite andb_false_r.
  assert (Hinc : includes 32 (replace 84 [32%N] s ++ str ":00") = true).
  { unfold includes. rewrite existsb_app. fold (includes 32 (replace 84 [32%N] s)).
    rewrite replace_includes by assumption. reflexivity. }
  rewrite Hinc. unfold substring0.
  rewrite take_app_length' by (rewrite replace_length; symmetry; exact Hlen).
  apply (replace_undo 84 32 s Hsp).
Qed.

Lemma date_input_round_trip_witness :
  formatDateForInput (formatDateForDatabase (str "2025-08-01T18:30"))
  = str "2025-08-01T18:30".
Proof.
  apply (date_input_round_trip (str "2025-08-01T18:30")); reflexivity.
Defined.

(** What the event form saves for a stored date that it has shown. *)
Lemma formatDateForDatabase_of_stored (s : jsstring) :
  length s = 19%nat ->
  includes 32 (take 16 s) = true -> includes 84 (take 16 s) = false ->
  formatDateForDatabase (formatDateForInput s) = take 16 s ++ str ":00".
Proof.
  intros Hlen Hsp HT. unfold formatDateForInput.
  rewrite falsy_length by lia. rewrite Hlen. simpl Nat.eqb.
  rewrite andb_false_r.
  assert (Hinc : includes 32 s = true).
  { rewrite <- (take_drop 16 s). unfold includes. rewrite existsb_app.
    fold (includes 32 (take 16 s)). rewrite Hsp. reflexivity. }
  rewrite Hinc. unfold substring0, formatDateForDatabase.
  assert (Hl : length (replace 32 (str "T") (take 16 s)) = 16%nat).
  { change (str "T") with [84%N]. rewrite replace_length, length_take. lia. }
  rewrite falsy_length by lia. rewrite Hl. simpl Nat.eqb.
  rewrite andb_false_r.
  change (str "T") with [84%N]. change (str " ") with [32%N].
  rewrite replace_includes by assumption.
  rewrite (replace_undo 32 84 _ HT). reflexivity.
Qed.

(** X2. A stored date (19 characters, a space and no [T] among the first
    16) that is shown in the event form and saved again keeps its first 16
    characters and gets [:00] for its seconds: it is saved unchanged
    exactly when its seconds were [:00]. *)
Theorem date_stored_round_trip (s : jsstring) :
  length s = 19%nat ->
  includes 32 (take 16 s) = true -> includes 84 (take 16 s) = false ->
  formatDateForDatabase (formatDateForInput s) = take 16 s ++ str ":00" /\
  (formatDateForDatabase (formatDateForInput s) = s <-> drop 16 s = str ":00").
Proof.
  intros Hlen Hsp HT.
  pose proof (formatDateForDatabase_of_stored s Hlen Hsp HT) as Hfirst.
  split; [exact Hfirst|]. rewrite Hfirst. split.
  - intros Heq. pose proof (take_drop 16 s) as Hs. rewrite <- Hs in Heq at 2.
    apply app_inv_head in Heq. symmetry. exact Heq.
  - intros Hdrop. rewrite <- Hdrop. apply take_drop.
Qed.

Lemma date_stored_round_trip_witness :
  formatDateForDatabase (formatDateForInput (str "2025-07-15 10:00:42"))
  = take 16 (str "2025-07-15 10:00:42") ++ str ":00" /\
  (formatDateForDatabase (formatDateForInput (str "2025-07-15 10:00:42"))
   = str "2025-07-15 10:00:42"
   <-> drop 16 (str "2025-07-15 10:00:42") = str ":00").
Proof.
  apply (date_stored_round_trip (str "2025-07-15 10:00:42")); reflexivity.
Defined.

End Dates.

(* ===================================================================== *)
(** ** More on the booking handler *)
(* ===================================================================== *)

Section BookingMore.

Import Attendee.

Lemma trimStart_blank (s : jsstring) :
  Forall (fun c => is_white_space c = true) s -> trimStart s = [].
Proof.
  induction 1 as [|c s Hc _ IH]; [reflexivity|]. simpl. rewrite Hc. exact IH.
Qed.

Lemma trim_blank (s : jsstring) :
  trim s = [] <-> Forall (fun c => is_white_space c = true) s.
Proof.
  split.
  - intros Hnil.
    destruct (trim_spec s) as (l & r & Hs & Hl & Hr & _).
    rewrite Hnil in Hs. rewrite Hs. simpl. apply Forall_app. auto.
  - intros Hs. unfold trim, trimEnd. rewrite (trimStart_blank s Hs).
    reflexivity.
Qed.

(** X3. The answer [Attendee name is required] is given exactly to the
    requests whose name is missing, empty or made of white space only,
    whatever the event and the ticket counts. *)
Theorem book_name_required now eventId body d :
  (book now eventId body d).1 = Send 400 (str "Attendee name is required")
  <-> (forall who, BookBody.attendee_name body = Some who ->
         Forall (fun c => is_white_space c = true) who).
Proof.
  unfold book.
  destruct (BookBody.attendee_name body) as [who|]; [|split; [discriminate|reflexivity]].
  destruct (bool_decide (trim who = [])) eqn:Htrim.
  - rewrite orb_true_r. apply bool_decide_eq_true in Htrim.
    split; [|reflexivity]. intros _ who' [= <-]. apply trim_blank, Htrim.
  - apply bool_decide_eq_false in Htrim.
    assert (Hfalsy : falsy (Some who) = false).
    { destruct who; [destruct Htrim; reflexivity | reflexivity]. }
    rewrite Hfalsy. simpl orb. cbv iota. split.
    + intros Hres. exfalso. revert Hres.
      destruct (_ + _ =? 0); [vm_compute; discriminate|].
      destruct (checkQuery d eventId); [|vm_compute; discriminate].
      cbv zeta. destruct (_ || _); [vm_compute; discriminate|].
      simpl. discriminate.
    + intros Hblank. destruct Htrim. apply trim_blank, Hblank. reflexivity.
Qed.

Lemma foldr_max_ge_init (a : Z) (l : list Z) : a <= foldr Z.max a l.
Proof. induction l as [|x l IH]; simpl; lia. Qed.

Lemma foldr_max_ge (a : Z) (l : list Z) (x : Z) :
  x ∈ l -> x <= foldr Z.max a l.
Proof.
  induction l as [|y l IH]; [intros H; inversion H|].
  rewrite elem_of_cons. intros [->|Hx]; simpl; [lia|].
  specialize (IH Hx). lia.
Qed.

Lemma next_rowid_fresh (seq : Z) (keys : list Z) (x : Z) :
  x ∈ keys -> x < next_rowid seq keys.
Proof. intros Hx. unfold next_rowid. pose proof (foldr_max_ge seq keys x Hx). lia. Qed.

(** X4. The booking handler touches the bookings only: the events, the
    organisers and the settings are never changed; a request that is not
    confirmed leaves the whole database as it was; a confirmed one adds one
    row, for the event of the request, at the end of the bookings, with a
    key above every key of the table and above the last key given. *)
Theorem book_frame now eventId body d :
  events (book now eventId body d).2 = events d /\
  organisers (book now eventId body d).2 = organisers d /\
  site_settings (book now eventId body d).2 = site_settings d /\
  ((forall ev bk, (book now eventId body d).1 <> RenderBookingConfirmation ev bk) ->
   (book now eventId body d).2 = d) /\
  (forall ev bk, (book now eventId body d).1 = RenderBookingConfirmation ev bk ->
   exists b,
     bookings (book now eventId body d).2 = bookings d ++ [b] /\
     event_id b = eventId /\ booking_date b = now /\
     bookings_seq d < booking_id b /\
     (forall b', b' ∈ bookings d -> booking_id b' < booking_id b)).
Proof.
  destruct (book now eventId body d) as [r d'] eqn:Hbook. simpl.
  destruct (book_cases now eventId body d) as [(ev & bk & Hr)|[Hd _]];
    rewrite Hbook in *; simpl in *.
  - subst r.
    destruct (book_success _ _ _ _ _ _ _ Hbook)
      as (who & e & _ & _ & _ & _ & _ & _ & _ & _ & _ & ->).
    repeat split; try reflexivity.
    + intros Hno. destruct (Hno ev bk). reflexivity.
    + intros _ _ _. eexists. split; [reflexivity|]. simpl.
      repeat split.
      * unfold next_rowid.
        pose proof (foldr_max_ge_init (bookings_seq d)
                      (map booking_id (bookings d))). lia.
      * intros b' Hb'. apply next_rowid_fresh.
        apply list_elem_of_In, in_map, list_elem_of_In, Hb'.
  - subst d'. repeat split; try reflexivity.
    intros ev bk ->.
    destruct (book_success _ _ _ _ _ _ _ Hbook)
      as (who & e & _ & _ & _ & _ & _ & _ & _ & _ & _ & Hd).
    exfalso. apply (f_equal (fun x => length (bookings x))) in Hd.
    simpl in Hd. rewrite length_app in Hd. simpl in Hd. lia.
Qed.

Lemma event_page_insert_ne now id who full conc cost d j :
  j <> id ->
  event_page j (insert_booking now id who full conc cost d) = event_page j d.
Proof.
  intros Hj. unfold event_page, eventQuery, join_bookings, sum_booked.
  rewrite bookings_of_insert_ne by assumption. reflexivity.
Qed.

(** X5. After a confirmed booking, the detail page of the event shows each
    availability lowered by exactly the number of tickets of the
    confirmation, and the detail page of every other event is as before. *)
Theorem book_then_event_page now eventId body d ev bk d' :
  book now eventId body d = (RenderBookingConfirmation ev bk, d') ->
  exists fa ca ev',
    event_page eventId d = RenderAttendeeEvent ev fa ca /\
    event_page eventId d'
    = RenderAttendeeEvent ev'
        (fa - Confirmation.full_price_tickets_booked bk)
        (ca - Confirmation.concession_tickets_booked bk) /\
    row_event ev' = row_event ev /\
    (forall j, j <> eventId -> event_page j d' = event_page j d).
Proof.
  intros Hbook.
  destruct (book_success _ _ _ _ _ _ _ Hbook)
    as (who & e & _ & _ & He & Hst & -> & _ & _ & _ & -> & ->).
  eexists _, _, _. split; [|split; [|split]].
  - unfold event_page, eventQuery. rewrite He, Hst. reflexivity.
  - unfold event_page, eventQuery.
    change (events (insert_booking _ _ _ _ _ _ d)) with (events d).
    rewrite He, Hst. f_equal; unfold join_bookings, sum_booked;
      cbn [full_booked concession_booked row_event
           Confirmation.full_price_tickets_booked
           Confirmation.concession_tickets_booked];
      rewrite bookings_of_insert, map_app; cbn [map]; rewrite sum_snoc;
      cbn [full_price_tickets_booked concession_tickets_booked]; lia.
  - reflexivity.
  - intros j Hj. apply event_page_insert_ne. exact Hj.
Qed.

Lemma book_then_event_page_witness :
  exists fa ca ev',
    event_page 3 (schema_db t0)
    = RenderAttendeeEvent (join_bookings (schema_db t0) 3
        {| fields :=
             {| title := str "Puppy Yoga";
                description := str "Yoga with cute puppies";
                event_date := str "2025-07-10 09:00:00";
                full_price_tickets := 15; full_price_cost := 40;
                concession_tickets := 5; concession_cost := 30 |};
           status := published; organiser_id := Some 1;
           created_date := t0; published_date := Some t0;
           last_modified := t0 |}) fa ca /\
    event_page 3 (book t1 3 (book_body "Carol" "2" "1") (schema_db t0)).2
    = RenderAttendeeEvent ev'
        (fa - Confirmation.full_price_tickets_booked
                {| Confirmation.attendee_name := str "Carol";
                   Confirmation.full_price_tickets_booked := 2;
                   Confirmation.concession_tickets_booked := 1;
                   Confirmation.total_cost := 110 |})
        (ca - Confirmation.concession_tickets_booked
                {| Confirmation.attendee_name := str "Carol";
                   Confirmation.full_price_tickets_booked := 2;
                   Confirmation.concession_tickets_booked := 1;
                   Confirmation.total_cost := 110 |}) /\
    row_event ev' = row_event (join_bookings (schema_db t0) 3
        {| fields :=
             {| title := str "Puppy Yoga";
                description := str "Yoga with cute puppies";
                event_date := str "2025-07-10 09:00:00";
                full_price_tickets := 15; full_price_cost := 40;
                concession_tickets := 5; concession_cost := 30 |};
           status := published; organiser_id := Some 1;
           created_date := t0; published_date := Some t0;
           last_modified := t0 |}) /\
    (forall j, j <> 3 ->
       event_page j (book t1 3 (book_body "Carol" "2" "1") (schema_db t0)).2
       = event_page j (schema_db t0)).
Proof.
  apply (book_then_event_page t1 3 (book_body "Carol" "2" "1") (schema_db t0)).
  vm_compute. reflexivity.
Defined.

End BookingMore.

(* ===================================================================== *)
(** ** The listings *)
(* ===================================================================== *)

Section Listings.

Lemma str_leb_total (a b : jsstring) : str_leb a b = true \/ str_leb b a = true.
Proof.
  revert b. induction a as [|x a IH]; intros [|y b]; simpl; auto.
  destruct (x <? y)%N eqn:Hxy; [auto|].
  destruct (y <? x)%N eqn:Hyx; [auto|]. apply IH.
Qed.

Lemma insert_by_Permutation {A} (le : A -> A -> bool) (x : A) (l : list A) :
  insert_by le x l ≡ₚ x :: l.
Proof.
  induction l as [|y l IH]; simpl; [reflexivity|].
  destruct (le x y); [reflexivity|].
  rewrite IH. apply Permutation_swap.
Qed.

Lemma order_by_Permutation {A} (le : A -> A -> bool) (l : list A) :
  order_by le l ≡ₚ l.
Proof.
  induction l as [|x l IH]; simpl; [reflexivity|].
  unfold order_by in *. simpl. rewrite insert_by_Permutation, IH. reflexivity.
Qed.

Lemma insert_by_Sorted {A} (le : A -> A -> bool) (x : A) (l : list A) :
  (forall a b, le a b = true \/ le b a = true) ->
  Sorted (fun a b => le a b = true) l ->
  Sorted (fun a b => le a b = true) (insert_by le x l).
Proof.
  intros Htotal. induction 1 as [|y l Hl IH Hhd]; simpl.
  - repeat constructor.
  - destruct (le x y) eqn:Hxy.
    + constructor; [constructor; assumption|]. constructor. exact Hxy.
    + constructor; [exact IH|].
      destruct l as [|z l]; simpl.
      * constructor. destruct (Htotal x y); congruence.
      * destruct (le x z).
        -- constructor. destruct (Htotal x y); congruence.
        -- constructor. inversion Hhd. assumption.
Qed.

Lemma order_by_Sorted {A} (le : A -> A -> bool) (l : list A) :
  (forall a b, le a b = true \/ le b a = true) ->
  Sorted (fun a b => le a b = true) (order_by le l).
Proof.
  intros Htotal. induction l as [|x l IH]; [constructor|].
  apply insert_by_Sorted; assumption.
Qed.

Lemma elem_of_order_by {A} (le : A -> A -> bool) (l : list A) (x : A) :
  x ∈ order_by le l <-> x ∈ l.
Proof. rewrite (order_by_Permutation le l). reflexivity. Qed.

(** The rows of a table with a given status. *)
Lemma elem_of_status_rows {B} (f : Z * event -> B) (st : event_status)
    (m : gmap Z event) (y : B) :
  y ∈ map f (filter (fun kv : Z * event => status kv.2 = st) (map_to_list m))
  <-> exists id e, m !! id = Some e /\ status e = st /\ y = f (id, e).
Proof.
  rewrite list_elem_of_In, in_map_iff. split.
  - intros ([id e] & <- & Hin). apply list_elem_of_In in Hin.
    apply list_elem_of_filter in Hin as [Hst Hin].
    apply elem_of_map_to_list in Hin. eauto.
  - intros (id & e & He & Hst & ->). exists (id, e). split; [reflexivity|].
    apply list_elem_of_In, list_elem_of_filter. split; [exact Hst|].
    apply elem_of_map_to_list. exact He.
Qed.

Lemma NoDup_status_keys (st : event_status) (m : gmap Z event) :
  NoDup (map fst (filter (fun kv : Z * event => status kv.2 = st)
                    (map_to_list m))).
Proof.
  pose proof (NoDup_fst_map_to_list m) as Hm.
  change ((map_to_list m).*1) with (map fst (map_to_list m)) in Hm.
  induction (map_to_list m) as [|kv l IH]; [constructor|].
  apply NoDup_cons in Hm as [Hkv Hl].
  rewrite filter_cons. destruct (decide (status kv.2 = st)); [|auto].
  simpl. apply NoDup_cons. split; [|auto].
  intros Hin. apply Hkv.
  apply list_elem_of_In, in_map_iff in Hin as (kv' & Heq & Hin).
  apply list_elem_of_In, in_map_iff. exists kv'. split; [exact Heq|].
  apply list_elem_of_In in Hin. apply list_elem_of_filter in Hin as [_ Hin].
  apply list_elem_of_In. exact Hin.
Qed.

(** X6. The attendee home page lists exactly the published events, each
    one once and with the totals of its bookings; no draft is listed. *)
Theorem attendee_home_lists_published d st rows :
  Attendee.home d = RenderAttendeeHome st rows ->
  (forall row, row ∈ rows <->
     exists id e, events d !! id = Some e /\ status e = published /\
                  row = join_bookings d id e) /\
  NoDup (map row_event_id rows) /\
  (forall row, row ∈ rows -> status (row_event row) = published).
Proof.
  unfold Attendee.home. intros [= _ <-]. unfold Attendee.eventsQuery.
  split; [|split].
  - intros row. rewrite elem_of_order_by.
    apply (elem_of_status_rows (fun kv => join_bookings d kv.1 kv.2)).
  - rewrite (Permutation_map row_event_id (order_by_Permutation _ _)).
    rewrite map_map. simpl. apply NoDup_status_keys.
  - intros row. rewrite elem_of_order_by.
    rewrite (elem_of_status_rows (fun kv => join_bookings d kv.1 kv.2)).
    intros (id & e & _ & Hst & ->). exact Hst.
Qed.

Lemma attendee_home_lists_published_witness :
  (forall row, row ∈ Attendee.eventsQuery (schema_db t0) <->
     exists id e, events (schema_db t0) !! id = Some e /\
                  status e = published /\
                  row = join_bookings (schema_db t0) id e) /\
  NoDup (map row_event_id (Attendee.eventsQuery (schema_db t0))) /\
  (forall row, row ∈ Attendee.eventsQuery (schema_db t0) ->
     status (row_event row) = published).
Proof.
  apply (attendee_home_lists_published (schema_db t0)
           {| site_name := str "Fun Yoga";
              site_description := str "All kinds of yoga for all ages" |}).
  reflexivity.
Defined.

(** X7. The attendee home page lists the events by date, the earliest
    first, in the order of the code units of the stored dates. *)
Theorem attendee_home_sorted d st rows :
  Attendee.home d = RenderAttendeeHome st rows ->
  Sorted (fun a b => str_leb (event_date (fields (row_event a)))
                             (event_date (fields (row_event b))) = true)
    rows.
Proof.
  unfold Attendee.home. intros [= _ <-]. unfold Attendee.eventsQuery.
  apply (order_by_Sorted
           (fun a b => str_leb (event_date (fields (row_event a)))
                               (event_date (fields (row_event b))))).
  intros a b. apply str_leb_total.
Qed.

Lemma attendee_home_sorted_witness :
  Sorted (fun a b => str_leb (event_date (fields (row_event a)))
                             (event_date (fields (row_event b))) = true)
    (Attendee.eventsQuery (schema_db t0)).
Proof.
  apply (attendee_home_sorted (schema_db t0)
           {| site_name := str "Fun Yoga";
              site_description := str "All kinds of yoga for all ages" |}).
  reflexivity.
Defined.

(** The first event of the schema is on 15 July and the third on 10 July:
    the third is listed first. *)
Example attendee_home_order :
  map row_event_id (Attendee.eventsQuery (schema_db t0)) = [3; 1].
Proof. vm_compute. reflexivity. Qed.

End Listings.

(* ===================================================================== *)
(** ** Creating and editing events *)
(* ===================================================================== *)

Section Forms.

Import Organiser.

Lemma next_event_key_fresh (d : db) :
  events d !! next_rowid (events_seq d) (map fst (map_to_list (events d))) = None.
Proof.
  destruct (events d !! _) as [e|] eqn:He; [|reflexivity].
  apply elem_of_map_to_list in He.
  assert (Hin : next_rowid (events_seq d) (map fst (map_to_list (events d)))
                ∈ map fst (map_to_list (events d))).
  { apply list_elem_of_In, in_map_iff. eexists (_, e). split; [reflexivity|].
    apply list_elem_of_In. exact He. }
  apply next_rowid_fresh with (seq := events_seq d) in Hin. lia.
Qed.

Lemma event_params_None (body : EventBody.t) :
  event_params body = None <->
  falsy (EventBody.title body) || falsy (EventBody.description body)
  || falsy (EventBody.event_date body) = true.
Proof.
  unfold event_params.
  destruct (EventBody.title body) as [[|c1 t1]|];
    destruct (EventBody.description body) as [[|c2 t2]|];
    destruct (EventBody.event_date body) as [[|c3 t3]|];
    simpl; split; intros H; try reflexivity; discriminate.
Qed.

(** X8. The two event forms are refused with 400, and change nothing,
    exactly when the title, the description or the date is missing or
    empty. *)
Theorem event_form_validation now eventId body s k d :
  isAuthenticated s = true -> organiserId s = Some k -> k <> 0 ->
  let missing :=
    falsy (EventBody.title body) || falsy (EventBody.description body)
    || falsy (EventBody.event_date body) in
  let refusal :=
    Send 400 (str "Title, description, and event date are required") in
  ((route now (PostCreateEvent body) s d).1 = refusal <-> missing = true) /\
  ((route now (PostEditEvent eventId body) s d).1 = refusal <-> missing = true) /\
  (missing = true ->
   (route now (PostCreateEvent body) s d).2 = d /\
   (route now (PostEditEvent eventId body) s d).2 = d).
Proof.
  intros Ha Hk Hne missing refusal. unfold route.
  rewrite !(requireAuth_pass s d k) by assumption. simpl handler.
  unfold create_event_handler, edit_event_handler.
  subst missing. rewrite <- event_params_None.
  destruct (event_params body) as [params|].
  - split; [|split].
    + split; [|discriminate].
      destruct (match organiserId s with
                | Some k0 => bool_decide (is_Some (organisers d !! k0))
                | None => true
                end); simpl; subst refusal; discriminate.
    + split; [|discriminate]. simpl. subst refusal. vm_compute. discriminate.
    + discriminate.
  - repeat split; reflexivity.
Qed.

Lemma event_form_validation_witness :
  let missing :=
    falsy (EventBody.title (kids_body 20 10))
    || falsy (EventBody.description (kids_body 20 10))
    || falsy (EventBody.event_date (kids_body 20 10)) in
  let refusal :=
    Send 400 (str "Title, description, and event date are required") in
  ((route t1 (PostCreateEvent (kids_body 20 10)) sarah (schema_db t0)).1
   = refusal <-> missing = true) /\
  ((route t1 (PostEditEvent 1 (kids_body 20 10)) sarah (schema_db t0)).1
   = refusal <-> missing = true) /\
  (missing = true ->
   (route t1 (PostCreateEvent (kids_body 20 10)) sarah (schema_db t0)).2
   = schema_db t0 /\
   (route t1 (PostEditEvent 1 (kids_body 20 10)) sarah (schema_db t0)).2
   = schema_db t0).
Proof.
  apply (event_form_validation t1 1 (kids_body 20 10) sarah 1 (schema_db t0));
    [reflexivity | reflexivity | lia].
Defined.

(** X9. A valid creation form gives a new draft event under a key that no
    event has and that is above the last key given; the event records the
    organiser of the session and the current time; every other event and
    every booking is as before; and the new event is not found by the
    attendee routes. *)
Theorem create_event_spec now body params s k o d :
  isAuthenticated s = true -> organiserId s = Some k -> k <> 0 ->
  organisers d !! k = Some o ->
  event_params body = Some params ->
  exists key d',
    route now (PostCreateEvent body) s d = (Redirect (str "/organiser"), d') /\
    events d !! key = None /\ events_seq d < key /\
    events d' !! key
    = Some {| fields := params; status := draft; organiser_id := Some k;
              created_date := now; published_date := None;
              last_modified := now |} /\
    (forall j, j <> key -> events d' !! j = events d !! j) /\
    bookings d' = bookings d /\ organisers d' = organisers d /\
    site_settings d' = site_settings d /\
    Attendee.event_page key d'
    = Send 404 (str "Event not found or not published") /\
    (forall now' req,
       (Attendee.book now' key req d').2 = d').
Proof.
  intros Ha Hk Hne Ho Hparams.
  eexists (next_rowid (events_seq d) (map fst (map_to_list (events d)))), _.
  split.
  { unfold route. rewrite (requireAuth_pass s d k) by assumption.
    simpl. unfold create_event_handler. rewrite Hparams, Hk, Ho.
    rewrite bool_decide_eq_true_2 by eauto. reflexivity. }
  split; [apply next_event_key_fresh|].
  split.
  { unfold next_rowid.
    pose proof (foldr_max_ge_init (events_seq d)
                  (map fst (map_to_list (events d)))). lia. }
  split; [simpl; apply lookup_insert_eq|].
  split; [intros j Hj; simpl; apply lookup_insert_ne; congruence|].
  split; [reflexivity|]. split; [reflexivity|]. split; [reflexivity|].
  assert (Hq : forall d0, Attendee.eventQuery
             {| organisers := organisers d; site_settings := site_settings d;
                events := <[next_rowid (events_seq d)
                              (map fst (map_to_list (events d))) :=
                            {| fields := params; status := draft;
                               organiser_id := Some k; created_date := now;
                               published_date := None;
                               last_modified := now |}]> (events d);
                bookings := bookings d;
                events_seq := d0; bookings_seq := bookings_seq d |}
             (next_rowid (events_seq d) (map fst (map_to_list (events d))))
           = None).
  { intros d0. unfold Attendee.eventQuery. simpl.
    rewrite lookup_insert_eq. reflexivity. }
  split.
  - unfold Attendee.event_page. rewrite Hq. reflexivity.
  - intros now' req.
    match goal with
    | |- (Attendee.book _ _ _ ?d1).2 = _ =>
        destruct (book_cases now' (next_rowid (events_seq d)
                    (map fst (map_to_list (events d)))) req d1)
          as [(ev & bk & Hr)|[Hsame _]]; [|exact Hsame]
    end.
    exfalso. revert Hr. unfold Attendee.book, Attendee.checkQuery.
    rewrite Hq.
    destruct (Attendee.BookBody.attendee_name req); [|discriminate].
    destruct (_ || _); [discriminate|].
    destruct (_ =? 0); discriminate.
Qed.

Lemma create_event_spec_witness :
  exists key d',
    route t1 (PostCreateEvent (kids_body 8 2)) sarah (schema_db t0)
    = (Redirect (str "/organiser"), d') /\
    events (schema_db t0) !! key = None /\ events_seq (schema_db t0) < key /\
    events d' !! key
    = Some {| fields :=
                {| title := str "Yoga Kids Workshop";
                   description := str "Beginner friendly kids yoga session";
                   event_date := str "2025-07-15 10:00:00";
                   full_price_tickets := 8; full_price_cost := 25;
                   concession_tickets := 2; concession_cost := 15 |};
              status := draft; organiser_id := Some 1;
              created_date := t1; published_date := None;
              last_modified := t1 |} /\
    (forall j, j <> key -> events d' !! j = events (schema_db t0) !! j) /\
    bookings d' = bookings (schema_db t0) /\
    organisers d' = organisers (schema_db t0) /\
    site_settings d' = site_settings (schema_db t0) /\
    Attendee.event_page key d'
    = Send 404 (str "Event not found or not published") /\
    (forall now' req, (Attendee.book now' key req d').2 = d').
Proof.
  eapply (create_event_spec t1 (kids_body 8 2) _ sarah 1 _ (schema_db t0));
    [reflexivity | reflexivity | lia | vm_compute; reflexivity
    | vm_compute; reflexivity].
Defined.

End Forms.

Section Editing.

Import Organiser.

Lemma sum_booked_set_events column f d id :
  sum_booked column (set_events f d) id = sum_booked column d id.
Proof. reflexivity. Qed.

(** X10. A valid edition form for an event that exists replaces the
    columns of the form and the modification time, and keeps the status,
    the organiser, the creation and publication dates, every other event
    and every booking; the availability of the event becomes the new
    capacities minus what was booked already. *)
Theorem edit_event_spec now eventId body params s k d e :
  isAuthenticated s = true -> organiserId s = Some k -> k <> 0 ->
  events d !! eventId = Some e ->
  event_params body = Some params ->
  exists d',
    route now (PostEditEvent eventId body) s d
    = (Redirect (str "/organiser?updated=true"), d') /\
    events d' !! eventId
    = Some {| fields := params; status := status e;
              organiser_id := organiser_id e;
              created_date := created_date e;
              published_date := published_date e;
              last_modified := now |} /\
    (forall j, j <> eventId -> events d' !! j = events d !! j) /\
    bookings d' = bookings d /\
    availability d' eventId
    = Some (full_price_tickets params
              - sum_booked full_price_tickets_booked d eventId,
            concession_tickets params
              - sum_booked concession_tickets_booked d eventId).
Proof.
  intros Ha Hk Hne He Hparams.
  exists (set_events (alter (update_row now params) eventId) d).
  assert (Hrow : events (set_events (alter (update_row now params) eventId) d)
                 !! eventId = Some (update_row now params e)).
  { simpl. rewrite lookup_alter_eq, He. reflexivity. }
  split.
  { unfold route. rewrite (requireAuth_pass s d k) by assumption.
    simpl. unfold edit_event_handler. rewrite Hparams. reflexivity. }
  split; [exact Hrow|].
  split; [intros j Hj; simpl; apply lookup_alter_ne; congruence|].
  split; [reflexivity|].
  unfold availability. rewrite Hrow. reflexivity.
Qed.

Lemma edit_event_spec_witness :
  exists d',
    route t1 (PostEditEvent 1 (kids_body 1 10)) sarah (schema_db t0)
    = (Redirect (str "/organiser?updated=true"), d') /\
    events d' !! 1
    = Some {| fields :=
                {| title := str "Yoga Kids Workshop";
                   description := str "Beginner friendly kids yoga session";
                   event_date := str "2025-07-15 10:00:00";
                   full_price_tickets := 1; full_price_cost := 25;
                   concession_tickets := 10; concession_cost := 15 |};
              status := published; organiser_id := Some 1;
              created_date := t0; published_date := Some t0;
              last_modified := t1 |} /\
    (forall j, j <> 1 -> events d' !! j = events (schema_db t0) !! j) /\
    bookings d' = bookings (schema_db t0) /\
    availability d' 1
    = Some (1 - sum_booked full_price_tickets_booked (schema_db t0) 1,
            10 - sum_booked concession_tickets_booked (schema_db t0) 1).
Proof.
  apply (edit_event_spec t1 1 (kids_body 1 10)
           {| title := str "Yoga Kids Workshop";
              description := str "Beginner friendly kids yoga session";
              event_date := str "2025-07-15 10:00:00";
              full_price_tickets := 1; full_price_cost := 25;
              concession_tickets := 10; concession_cost := 15 |}
           sarah 1 (schema_db t0)
           {| fields :=
                {| title := str "Yoga Kids Workshop";
                   description := str "Beginner friendly kids yoga session";
                   event_date := str "2025-07-15 10:00:00";
                   full_price_tickets := 20; full_price_cost := 25;
                   concession_tickets := 10; concession_cost := 15 |};
              status := published; organiser_id := Some 1;
              created_date := t0; published_date := Some t0;
              last_modified := t0 |});
    [reflexivity | reflexivity | lia | vm_compute; reflexivity
    | vm_compute; reflexivity].
Defined.

(** X11. The edition form does not compare the new capacities with the
    bookings. Once a capacity is set below what is booked, no request with a
    count of that type that is not negative is confirmed for the event, a
    request for tickets of the other type alone included. *)
Theorem edit_below_booked_blocks now eventId body params s k d e :
  isAuthenticated s = true -> organiserId s = Some k -> k <> 0 ->
  events d !! eventId = Some e ->
  event_params body = Some params ->
  full_price_tickets params < sum_booked full_price_tickets_booked d eventId ->
  forall now' req,
    0 <= Attendee.wanted (Attendee.BookBody.full_price_tickets req) ->
    (Attendee.book now' eventId req
       (route now (PostEditEvent eventId body) s d).2).2
    = (route now (PostEditEvent eventId body) s d).2 /\
    forall ev bk,
      (Attendee.book now' eventId req
         (route now (PostEditEvent eventId body) s d).2).1
      <> RenderBookingConfirmation ev bk.
Proof.
  intros Ha Hk Hne He Hparams Hlow now' req Hwanted.
  assert (Hno : forall ev bk,
            (Attendee.book now' eventId req
               (route now (PostEditEvent eventId body) s d).2).1
            <> RenderBookingConfirmation ev bk).
  { intros ev bk Hr.
    unfold route in Hr. rewrite (requireAuth_pass s d k) in Hr by assumption.
    simpl in Hr. unfold edit_event_handler in Hr. rewrite Hparams in Hr.
    simpl in Hr.
    destruct (Attendee.book now' eventId req
                (set_events (alter (update_row now params) eventId) d))
      as [r d'] eqn:Hbook.
    simpl in Hr. subst r.
    destruct (book_success _ _ _ _ _ _ _ Hbook)
      as (who & e' & _ & _ & He' & _ & _ & _ & Hfull & _).
    simpl in He'. rewrite lookup_alter_eq, He in He'. injection He' as <-.
    rewrite sum_booked_set_events in Hfull. simpl in Hfull. lia. }
  split; [|exact Hno].
  destruct (book_cases now' eventId req
              (route now (PostEditEvent eventId body) s d).2)
    as [(ev & bk & Hr)|[Hsame _]]; [|exact Hsame].
  destruct (Hno ev bk Hr).
Qed.

Lemma edit_below_booked_blocks_witness :
  (Attendee.book t1 1 (book_body "Carol" "0" "1")
     (route t1 (PostEditEvent 1 (kids_body 1 10)) sarah (schema_db t0)).2).2
  = (route t1 (PostEditEvent 1 (kids_body 1 10)) sarah (schema_db t0)).2 /\
  forall ev bk,
    (Attendee.book t1 1 (book_body "Carol" "0" "1")
       (route t1 (PostEditEvent 1 (kids_body 1 10)) sarah (schema_db t0)).2).1
    <> RenderBookingConfirmation ev bk.
Proof.
  eapply (edit_below_booked_blocks t1 1 (kids_body 1 10) _ sarah 1
            (schema_db t0));
    [reflexivity | reflexivity | lia | vm_compute; reflexivity
    | vm_compute; reflexivity | vm_compute; reflexivity
    | vm_compute; discriminate].
Defined.

(** For instance one concession ticket for the first event of the schema,
    of which 9 are left, after its full-price capacity is set to 1. *)
Example edit_below_booked_example :
  Attendee.book t1 1 (book_body "Carol" "0" "1")
    (route t1 (PostEditEvent 1 (kids_body 1 10)) sarah (schema_db t0)).2
  = (Send 400 (str "Not enough tickets available"),
     (route t1 (PostEditEvent 1 (kids_body 1 10)) sarah (schema_db t0)).2).
Proof. vm_compute. reflexivity. Qed.



End Editing.

(* ===================================================================== *)
(** ** What the organiser routes keep *)
(* ===================================================================== *)

Section Kept.

Import Organiser.

Lemma requireAuth_cases s d next :
  requireAuth s d next = next
  \/ requireAuth s d next = (Redirect (str "/organiser/login"), d).
Proof. unfold requireAuth. destruct (_ && _); auto. Qed.

(** X13. No organiser route takes a published event back to a draft or
    changes its publication date, its creation date or its organiser: after
    any request the event is either deleted, by the deletion of that very
    event, or still published with the same three values. *)
Theorem published_stays_published now r s d eventId e :
  events d !! eventId = Some e -> status e = published ->
  (events (route now r s d).2 !! eventId = None /\ r = PostDeleteEvent eventId)
  \/ (exists e',
        events (route now r s d).2 !! eventId = Some e' /\
        status e' = published /\
        published_date e' = published_date e /\
        created_date e' = created_date e /\
        organiser_id e' = organiser_id e).
Proof.
  intros He Hst. unfold route.
  destruct (requireAuth_cases s d (handler now r s d)) as [-> | ->];
    [|right; exists e; auto].
  destruct r as [u| |b| |b|i|i b|i|i]; simpl;
    try (right; exists e; split; [exact He | auto]; fail).
  - unfold settings_handler.
    destruct (SettingsBody.site_name b) as [[|? ?]|];
      destruct (SettingsBody.site_description b) as [[|? ?]|];
      right; exists e; auto.
  - unfold create_event_handler.
    destruct (event_params b) as [params|]; [|right; exists e; auto].
    destruct (match organiserId s with
              | Some k0 => bool_decide (is_Some (organisers d !! k0))
              | None => true
              end); [|right; exists e; auto].
    right. exists e. split; [|auto]. simpl.
    rewrite lookup_insert_ne; [exact He|].
    intros Heq. pose proof (next_event_key_fresh d) as Hfresh.
    rewrite Heq, He in Hfresh. discriminate.
  - unfold edit_event_handler.
    destruct (event_params b) as [params|]; [|right; exists e; auto].
    right. simpl. destruct (decide (i = eventId)) as [->|Hi].
    + rewrite lookup_alter_eq, He. simpl. eexists. split; [reflexivity|].
      simpl. auto.
    + rewrite lookup_alter_ne by assumption. exists e. auto.
  - right. destruct (decide (i = eventId)) as [->|Hi].
    + rewrite lookup_alter_eq, He. simpl. unfold publish_row. rewrite Hst.
      exists e. auto.
    + rewrite lookup_alter_ne by assumption. exists e. auto.
  - unfold delete_event.
    destruct (events d !! i) as [ei|] eqn:Hi; [|right; exists e; auto].
    simpl. destruct (decide (i = eventId)) as [->|Hne].
    + left. split; [apply lookup_delete_eq | reflexivity].
    + right. rewrite lookup_delete_ne by assumption. exists e. auto.
Qed.

Lemma published_stays_published_witness :
  (events
     (route t1 (PostEditEvent 1 (kids_body 1 10)) sarah (schema_db t0)).2 !! 1
   = None /\ PostEditEvent 1 (kids_body 1 10) = PostDeleteEvent 1)
  \/ (exists e',
        events
          (route t1 (PostEditEvent 1 (kids_body 1 10)) sarah (schema_db t0)).2
          !! 1 = Some e' /\
        status e' = published /\
        published_date e' = Some t0 /\
        created_date e' = t0 /\
        organiser_id e' = Some 1).
Proof.
  apply (published_stays_published t1 (PostEditEvent 1 (kids_body 1 10))
           sarah (schema_db t0) 1
           {| fields :=
                {| title := str "Yoga Kids Workshop";
                   description := str "Beginner friendly kids yoga session";
                   event_date := str "2025-07-15 10:00:00";
                   full_price_tickets := 20; full_price_cost := 25;
                   concession_tickets := 10; concession_cost := 15 |};
              status := published; organiser_id := Some 1;
              created_date := t0; published_date := Some t0;
              last_modified := t0 |});
    vm_compute; reflexivity.
Defined.

Lemma bookings_of_unreferenced d key :
  (forall b, b ∈ bookings d -> is_Some (events d !! event_id b)) ->
  events d !! key = None ->
  bookings_of d key = [].
Proof.
  intros Href Hkey. unfold bookings_of.
  induction (bookings d) as [|b l IH]; [reflexivity|].
  rewrite filter_cons. destruct (decide (event_id b = key)) as [Hb|Hb].
  - destruct (Href b) as [e He]; [left|]. rewrite Hb, Hkey in He. discriminate.
  - apply IH. intros b' Hb'. apply Href. right. exact Hb'.
Qed.

(** X14. In a database whose bookings all refer to events of the table, an
    event that is created and then published is shown by its detail page
    with its whole capacities available and with the time of the
    publication, while it was not found before the publication. *)
Theorem create_publish_visible now now' body params s k o d :
  isAuthenticated s = true -> organiserId s = Some k -> k <> 0 ->
  organisers d !! k = Some o ->
  event_params body = Some params ->
  (forall b, b ∈ bookings d -> is_Some (events d !! event_id b)) ->
  exists key d1 d2 row,
    route now (PostCreateEvent body) s d = (Redirect (str "/organiser"), d1) /\
    Attendee.event_page key d1
    = Send 404 (str "Event not found or not published") /\
    route now' (PostPublishEvent key) s d1 = (Redirect (str "/organiser"), d2) /\
    Attendee.event_page key d2
    = RenderAttendeeEvent row
        (full_price_tickets params) (concession_tickets params) /\
    row_event_id row = key /\
    fields (row_event row) = params /\
    status (row_event row) = published /\
    published_date (row_event row) = Some now'.
Proof.
  intros Ha Hk Hne Ho Hparams Href.
  pose proof (next_event_key_fresh d) as Hfresh.
  set (key := next_rowid (events_seq d) (map fst (map_to_list (events d)))) in *.
  eexists key, _, _, _. split.
  { unfold route. rewrite (requireAuth_pass s d k) by assumption.
    simpl. unfold create_event_handler. rewrite Hparams, Hk, Ho.
    rewrite bool_decide_eq_true_2 by eauto. reflexivity. }
  split.
  { unfold Attendee.event_page, Attendee.eventQuery. simpl.
    fold key. rewrite lookup_insert_eq. reflexivity. }
  split.
  { unfold route. rewrite requireAuth_pass with (k := k) by assumption.
    reflexivity. }
  unfold Attendee.event_page, Attendee.eventQuery. simpl. fold key.
  rewrite lookup_alter_eq, lookup_insert_eq. simpl.
  unfold join_bookings, sum_booked.
  assert (Hnone : forall d0 : db, bookings d0 = bookings d ->
                    bookings_of d0 key = []).
  { intros d0 Hd0. unfold bookings_of. rewrite Hd0.
    apply (bookings_of_unreferenced d key Href Hfresh). }
  rewrite !Hnone by reflexivity. simpl.
  rewrite !Z.sub_0_r. repeat split; reflexivity.
Qed.

Lemma create_publish_visible_witness :
  exists key d1 d2 row,
    route t0 (PostCreateEvent (kids_body 8 2)) sarah (schema_db t0)
    = (Redirect (str "/organiser"), d1) /\
    Attendee.event_page key d1
    = Send 404 (str "Event not found or not published") /\
    route t1 (PostPublishEvent key) sarah d1 = (Redirect (str "/organiser"), d2) /\
    Attendee.event_page key d2
    = RenderAttendeeEvent row
        (full_price_tickets
           {| title := str "Yoga Kids Workshop";
              description := str "Beginner friendly kids yoga session";
              event_date := str "2025-07-15 10:00:00";
              full_price_tickets := 8; full_price_cost := 25;
              concession_tickets := 2; concession_cost := 15 |})
        (concession_tickets
           {| title := str "Yoga Kids Workshop";
              description := str "Beginner friendly kids yoga session";
              event_date := str "2025-07-15 10:00:00";
              full_price_tickets := 8; full_price_cost := 25;
              concession_tickets := 2; concession_cost := 15 |}) /\
    row_event_id row = key /\
    fields (row_event row)
    = {| title := str "Yoga Kids Workshop";
         description := str "Beginner friendly kids yoga session";
         event_date := str "2025-07-15 10:00:00";
         full_price_tickets := 8; full_price_cost := 25;
         concession_tickets := 2; concession_cost := 15 |} /\
    status (row_event row) = published /\
    published_date (row_event row) = Some t1.
Proof.
  eapply (create_publish_visible t0 t1 (kids_body 8 2) _ sarah 1 _
            (schema_db t0));
    [reflexivity | reflexivity | lia | vm_compute; reflexivity
    | vm_compute; reflexivity |].
  intros b Hb. vm_compute in Hb.
  repeat (apply elem_of_cons in Hb as [-> | Hb]; [vm_compute; eauto|]).
  inversion Hb.
Defined.

End Kept.

Section References.

Import Organiser.

(** X15. That every booking refers to an event of the table is kept by
    the booking handler and by every organiser route: a booking is inserted
    for an event that was found, and the deletion of an event takes its
    bookings with it. *)
Theorem references_preserved d :
  (forall b, b ∈ bookings d -> is_Some (events d !! event_id b)) ->
  (forall now eventId body b,
     b ∈ bookings (Attendee.book now eventId body d).2 ->
     is_Some (events (Attendee.book now eventId body d).2 !! event_id b)) /\
  (forall now r s b,
     b ∈ bookings (route now r s d).2 ->
     is_Some (events (route now r s d).2 !! event_id b)).
Proof.
  intros Href. split.
  - intros now eventId body b.
    destruct (book_cases now eventId body d) as [(ev & bk & Hr)|[-> _]];
      [|apply Href].
    destruct (Attendee.book now eventId body d) as [r d'] eqn:Hbook.
    simpl in Hr |- *. subst r.
    destruct (book_success _ _ _ _ _ _ _ Hbook)
      as (who & e & _ & _ & He & _ & _ & _ & _ & _ & _ & ->).
    simpl. rewrite elem_of_app, list_elem_of_singleton.
    intros [Hb | ->]; [apply Href, Hb | simpl; eauto].
  - intros now r s b. unfold route.
    destruct (requireAuth_cases s d (handler now r s d)) as [-> | ->];
      [|apply Href].
    destruct r as [u| |bd| |bd|i|i bd|i|i]; simpl; try apply Href.
    + unfold settings_handler.
      destruct (SettingsBody.site_name bd) as [[|? ?]|];
        destruct (SettingsBody.site_description bd) as [[|? ?]|];
        apply Href.
    + unfold create_event_handler.
      destruct (event_params bd) as [params|]; [|apply Href].
      destruct (match organiserId s with
                | Some k0 => bool_decide (is_Some (organisers d !! k0))
                | None => true
                end); [|apply Href].
      simpl. intros Hb. rewrite lookup_insert. case_decide; [eauto|].
      apply Href, Hb.
    + unfold edit_event_handler.
      destruct (event_params bd) as [params|]; [|apply Href].
      simpl. intros Hb. rewrite lookup_alter. case_decide; [|apply Href, Hb].
      subst i. destruct (Href b Hb) as [e ->]. simpl. eauto.
    + intros Hb. rewrite lookup_alter. case_decide; [|apply Href, Hb].
      subst i. destruct (Href b Hb) as [e ->]. simpl. eauto.
    + unfold delete_event.
      destruct (events d !! i) as [ei|] eqn:Hi; [|apply Href].
      simpl. rewrite list_elem_of_filter. intros [Hne Hb].
      rewrite lookup_delete_ne by congruence. apply Href, Hb.
Qed.

Lemma references_preserved_witness :
  (forall now eventId body b,
     b ∈ bookings (Attendee.book now eventId body (schema_db t0)).2 ->
     is_Some (events (Attendee.book now eventId body (schema_db t0)).2
              !! event_id b)) /\
  (forall now r s b,
     b ∈ bookings (route now r s (schema_db t0)).2 ->
     is_Some (events (route now r s (schema_db t0)).2 !! event_id b)).
Proof.
  apply (references_preserved (schema_db t0)).
  intros b Hb. vm_compute in Hb.
  repeat (apply elem_of_cons in Hb as [-> | Hb]; [vm_compute; eauto|]).
  inversion Hb.
Defined.

Lemma publish_row_twice now now' e :
  publish_row now' (publish_row now e) = publish_row now e.
Proof. unfold publish_row. destruct (status e) eqn:Hst; simpl; [reflexivity|]. rewrite Hst. reflexivity. Qed.

Lemma delete_event_twice eventId d :
  delete_event eventId (delete_event eventId d) = delete_event eventId d.
Proof.
  unfold delete_event at 2 3.
  destruct (events d !! eventId) as [e|] eqn:He.
  - unfold delete_event. simpl. rewrite lookup_delete_eq. reflexivity.
  - unfold delete_event. rewrite He. reflexivity.
Qed.

(** X16. Publishing or deleting an event a second time changes nothing:
    the publication date stays that of the first publication, and the
    deletion of an event that is not there leaves the database as it is. *)
Theorem publish_delete_twice now now' eventId s k d :
  isAuthenticated s = true -> organiserId s = Some k -> k <> 0 ->
  (route now' (PostPublishEvent eventId) s
     (route now (PostPublishEvent eventId) s d).2).2
  = (route now (PostPublishEvent eventId) s d).2 /\
  (route now' (PostDeleteEvent eventId) s
     (route now (PostDeleteEvent eventId) s d).2).2
  = (route now (PostDeleteEvent eventId) s d).2 /\
  (events d !! eventId = None ->
   (route now (PostDeleteEvent eventId) s d).2 = d).
Proof.
  intros Ha Hk Hne. unfold route.
  rewrite !(requireAuth_pass s _ k) by assumption. simpl.
  split; [|split].
  - unfold set_events. simpl. f_equal.
    apply map_eq. intros j. destruct (decide (eventId = j)) as [<-|Hj].
    + rewrite !lookup_alter_eq.
      destruct (events d !! eventId) as [e|]; simpl; [|reflexivity].
      rewrite publish_row_twice. reflexivity.
    + rewrite !lookup_alter_ne by assumption. reflexivity.
  - apply delete_event_twice.
  - intros Hnone. unfold delete_event. rewrite Hnone. reflexivity.
Qed.

Lemma publish_delete_twice_witness :
  (route t1 (PostPublishEvent 2) sarah
     (route t0 (PostPublishEvent 2) sarah (schema_db t0)).2).2
  = (route t0 (PostPublishEvent 2) sarah (schema_db t0)).2 /\
  (route t1 (PostDeleteEvent 2) sarah
     (route t0 (PostDeleteEvent 2) sarah (schema_db t0)).2).2
  = (route t0 (PostDeleteEvent 2) sarah (schema_db t0)).2 /\
  (events (schema_db t0) !! 2 = None ->
   (route t0 (PostDeleteEvent 2) sarah (schema_db t0)).2 = schema_db t0).
Proof.
  apply (publish_delete_twice t0 t1 2 sarah 1 (schema_db t0));
    [reflexivity | reflexivity | lia].
Defined.

End References.

(* ===================================================================== *)
(** ** Settings, login and the organiser pages *)
(* ===================================================================== *)

Section Pages.

Import Organiser.

(** X17. For an authenticated organiser, a settings form with a name and a
    description that are not empty replaces the settings row, whatever it
    was, and touches nothing else; the attendee page, the dashboard and the
    settings form then all show the two submitted values. A form with an
    empty or missing field is refused with 400 and changes nothing. *)
Theorem settings_upsert now body s k d :
  isAuthenticated s = true -> organiserId s = Some k -> k <> 0 ->
  (forall n ds,
     SettingsBody.site_name body = Some n -> n <> [] ->
     SettingsBody.site_description body = Some ds -> ds <> [] ->
     exists d',
       route now (PostSettings body) s d = (Redirect (str "/organiser"), d') /\
       site_settings d' = Some {| site_name := n; site_description := ds |} /\
       events d' = events d /\ bookings d' = bookings d /\
       organisers d' = organisers d /\
       forall now' updated,
         shown_settings (Attendee.home d')
         = Some {| site_name := n; site_description := ds |} /\
         shown_settings (route now' (GetHome updated) s d').1
         = Some {| site_name := n; site_description := ds |} /\
         shown_settings (route now' GetSettings s d').1
         = Some {| site_name := n; site_description := ds |}) /\
  (falsy (SettingsBody.site_name body)
   || falsy (SettingsBody.site_description body) = true ->
   route now (PostSettings body) s d
   = (Send 400 (str "All fields are required"), d)).
Proof.
  intros Ha Hk Hne. unfold route.
  rewrite (requireAuth_pass s d k) by assumption. simpl handler.
  unfold settings_handler. split.
  - intros n ds -> Hn -> Hds.
    destruct n as [|c n]; [destruct Hn; reflexivity|].
    destruct ds as [|c' ds]; [destruct Hds; reflexivity|].
    eexists. split; [reflexivity|].
    repeat split; rewrite ?(requireAuth_pass s _ k) by assumption;
      reflexivity.
  - destruct (SettingsBody.site_name body) as [[|? ?]|];
      destruct (SettingsBody.site_description body) as [[|? ?]|];
      simpl; intros H; try reflexivity; discriminate.
Qed.

Lemma settings_upsert_witness :
  (forall n ds,
     SettingsBody.site_name (settings_body "Calm Yoga" "Classes for all") = Some n ->
     n <> [] ->
     SettingsBody.site_description (settings_body "Calm Yoga" "Classes for all")
     = Some ds -> ds <> [] ->
     exists d',
       route t1 (PostSettings (settings_body "Calm Yoga" "Classes for all"))
         sarah (schema_db t0) = (Redirect (str "/organiser"), d') /\
       site_settings d' = Some {| site_name := n; site_description := ds |} /\
       events d' = events (schema_db t0) /\
       bookings d' = bookings (schema_db t0) /\
       organisers d' = organisers (schema_db t0) /\
       forall now' updated,
         shown_settings (Attendee.home d')
         = Some {| site_name := n; site_description := ds |} /\
         shown_settings (route now' (GetHome updated) sarah d').1
         = Some {| site_name := n; site_description := ds |} /\
         shown_settings (route now' GetSettings sarah d').1
         = Some {| site_name := n; site_description := ds |}) /\
  (falsy (SettingsBody.site_name (settings_body "Calm Yoga" "Classes for all"))
   || falsy (SettingsBody.site_description
               (settings_body "Calm Yoga" "Classes for all")) = true ->
   route t1 (PostSettings (settings_body "Calm Yoga" "Classes for all"))
     sarah (schema_db t0)
   = (Send 400 (str "All fields are required"), schema_db t0)).
Proof.
  apply (settings_upsert t1 (settings_body "Calm Yoga" "Classes for all")
           sarah 1 (schema_db t0)); [reflexivity | reflexivity | lia].
Defined.


(** X19. A session that is authenticated for an organiser whose key is 0
    is sent from every gated route to the login page, and by the login page
    back to the dashboard; a login for such an organiser creates it. *)
Theorem key_zero_redirect_cycle e o s d now r :
  organisers d !! 0 = Some o ->
  LoginBody.password
    {| LoginBody.password := None; LoginBody.organiser_id := 0 |}
  = ORGANISER_PASSWORDS e 0 /\
  isAuthenticated
    (login e {| LoginBody.password := None; LoginBody.organiser_id := 0 |} s d).2
  = true /\
  route now r
    (login e {| LoginBody.password := None; LoginBody.organiser_id := 0 |} s d).2
    d
  = (Redirect (str "/organiser/login"), d) /\
  login_page
    (login e {| LoginBody.password := None; LoginBody.organiser_id := 0 |} s d).2
    d
  = Redirect (str "/organiser").
Proof.
  intros Ho. unfold login. simpl. rewrite Ho. simpl. auto.
Qed.

Lemma key_zero_redirect_cycle_witness :
  LoginBody.password
    {| LoginBody.password := None; LoginBody.organiser_id := 0 |}
  = ORGANISER_PASSWORDS passwords 0 /\
  isAuthenticated
    (login passwords
       {| LoginBody.password := None; LoginBody.organiser_id := 0 |}
       no_session (with_organiser 0 guest (schema_db t0))).2
  = true /\
  route t1 GetSettings
    (login passwords
       {| LoginBody.password := None; LoginBody.organiser_id := 0 |}
       no_session (with_organiser 0 guest (schema_db t0))).2
    (with_organiser 0 guest (schema_db t0))
  = (Redirect (str "/organiser/login"), with_organiser 0 guest (schema_db t0)) /\
  login_page
    (login passwords
       {| LoginBody.password := None; LoginBody.organiser_id := 0 |}
       no_session (with_organiser 0 guest (schema_db t0))).2
    (with_organiser 0 guest (schema_db t0))
  = Redirect (str "/organiser").
Proof.
  apply (key_zero_redirect_cycle passwords guest no_session
           (with_organiser 0 guest (schema_db t0)) t1 GetSettings).
  vm_compute. reflexivity.
Defined.

End Pages.

Section OrganiserListings.

Import Organiser.

Lemma length_order_by {A} (le : A -> A -> bool) (l : list A) :
  length (order_by le l) = length l.
Proof. apply Permutation_length, order_by_Permutation. Qed.

Lemma length_status_split (l : list (Z * event)) :
  (length (filter (fun kv : Z * event => status kv.2 = published) l)
   + length (filter (fun kv : Z * event => status kv.2 = draft) l))%nat
  = length l.
Proof.
  induction l as [|[id e] l IH]; [reflexivity|].
  rewrite !filter_cons. simpl. destruct (status e).
  - rewrite decide_False by discriminate.
    rewrite decide_True by reflexivity. simpl. lia.
  - rewrite decide_True by reflexivity.
    rewrite decide_False by discriminate. simpl. lia.
Qed.

(** X20. The dashboard shows every event once: the published ones, with
    the totals of their bookings, by date with the earliest first, and the
    drafts by creation date with the latest first; each with the name of
    its organiser. *)
Theorem dashboard_lists now updated s k d o st pubs drafts msg :
  isAuthenticated s = true -> organiserId s = Some k -> k <> 0 ->
  route now (GetHome updated) s d
  = (RenderOrganiserHome o st pubs drafts msg, d) ->
  o = organisers d !! k /\
  (forall p, p ∈ pubs <->
     exists id e, events d !! id = Some e /\ status e = published /\
       p = {| p_row := join_bookings d id e;
              p_organiser_name := organiser_name_of d e |}) /\
  (forall r, r ∈ drafts <->
     exists id e, events d !! id = Some e /\ status e = draft /\
       r = {| d_event_id := id; d_event := e;
              d_organiser_name := organiser_name_of d e |}) /\
  (length pubs + length drafts)%nat = size (events d) /\
  Sorted (fun a b => str_leb (event_date (fields (row_event (p_row a))))
                             (event_date (fields (row_event (p_row b))))
                     = true) pubs /\
  Sorted (fun a b => str_leb (created_date (d_event b))
                             (created_date (d_event a)) = true) drafts.
Proof.
  intros Ha Hk Hne. unfold route.
  rewrite (requireAuth_pass s d k) by assumption. simpl handler.
  unfold home_handler. rewrite Hk. intros [= <- _ <- <- _].
  unfold publishedQuery, draftQuery.
  split; [reflexivity|]. split; [|split; [|split; [|split]]].
  - intros p. rewrite elem_of_order_by.
    apply (elem_of_status_rows
             (fun kv => {| p_row := join_bookings d kv.1 kv.2;
                           p_organiser_name := organiser_name_of d kv.2 |})).
  - intros r. rewrite elem_of_order_by.
    apply (elem_of_status_rows
             (fun kv => {| d_event_id := kv.1; d_event := kv.2;
                           d_organiser_name := organiser_name_of d kv.2 |})).
  - rewrite !length_order_by, !length_map, length_status_split.
    apply length_map_to_list.
  - apply (order_by_Sorted
             (fun a b => str_leb (event_date (fields (row_event (p_row a))))
                                 (event_date (fields (row_event (p_row b)))))).
    intros a b. apply str_leb_total.
  - apply (order_by_Sorted
             (fun a b => str_leb (created_date (d_event b))
                                 (created_date (d_event a)))).
    intros a b. apply str_leb_total.
Qed.

Lemma dashboard_lists_witness :
  Some {| name := str "Sarah Johnson";
          o_description := str "Lead Yoga Instructor and Studio Manager" |}
  = organisers (schema_db t0) !! 1 /\
  (forall p, p ∈ publishedQuery (schema_db t0) <->
     exists id e, events (schema_db t0) !! id = Some e /\
       status e = published /\
       p = {| p_row := join_bookings (schema_db t0) id e;
              p_organiser_name := organiser_name_of (schema_db t0) e |}) /\
  (forall r, r ∈ draftQuery (schema_db t0) <->
     exists id e, events (schema_db t0) !! id = Some e /\ status e = draft /\
       r = {| d_event_id := id; d_event := e;
              d_organiser_name := organiser_name_of (schema_db t0) e |}) /\
  (length (publishedQuery (schema_db t0))
   + length (draftQuery (schema_db t0)))%nat = size (events (schema_db t0)) /\
  Sorted (fun a b => str_leb (event_date (fields (row_event (p_row a))))
                             (event_date (fields (row_event (p_row b))))
                     = true) (publishedQuery (schema_db t0)) /\
  Sorted (fun a b => str_leb (created_date (d_event b))
                             (created_date (d_event a)) = true)
    (draftQuery (schema_db t0)).
Proof.
  apply (dashboard_lists t1 None sarah 1 (schema_db t0) _
           {| site_name := str "Fun Yoga";
              site_description := str "All kinds of yoga for all ages" |}
           _ _ None);
    [reflexivity | reflexivity | lia | reflexivity].
Defined.

(** X21. The login page of a session that is not authenticated lists every
    organiser of the table once, with its key and its name, by name; a
    session that is authenticated is redirected to the dashboard. *)
Theorem login_page_lists s d :
  (isAuthenticated s = true -> login_page s d = Redirect (str "/organiser")) /\
  (isAuthenticated s = false ->
   exists l,
     login_page s d = RenderOrganiserLogin None l /\
     (forall id n, (id, n) ∈ l <->
        exists o, organisers d !! id = Some o /\ n = name o) /\
     length l = size (organisers d) /\
     Sorted (fun a b : Z * jsstring => str_leb a.2 b.2 = true) l).
Proof.
  unfold login_page. split; intros ->; [reflexivity|].
  eexists. split; [reflexivity|]. unfold organisersQuery.
  split; [|split].
  - intros id n. rewrite elem_of_order_by, list_elem_of_In, in_map_iff. split.
    + intros ([id' o] & [= <- <-] & Hin). exists o. split; [|reflexivity].
      apply elem_of_map_to_list, list_elem_of_In, Hin.
    + intros (o & Ho & ->). exists (id, o). split; [reflexivity|].
      apply list_elem_of_In, elem_of_map_to_list, Ho.
  - rewrite length_order_by, length_map. apply length_map_to_list.
  - apply (order_by_Sorted (fun a b : Z * jsstring => str_leb a.2 b.2)).
    intros a b. apply str_leb_total.
Qed.

Example login_page_order :
  login_page no_session (schema_db t0)
  = RenderOrganiserLogin None
      [(2, str "Mike Chen"); (1, str "Sarah Johnson")].
Proof. vm_compute. reflexivity. Qed.

End OrganiserListings.

Section Counts.

Import Attendee.




Lemma NoDup_map_filter {A B} (f : A -> B) (P : A -> Prop)
    `{!forall x, Decision (P x)} (l : list A) :
  NoDup (map f l) -> NoDup (map f (filter P l)).
Proof.
  induction l as [|x l IH]; [intros _; constructor|].
  simpl. intros Hnd. apply NoDup_cons in Hnd as [Hx Hl].
  rewrite filter_cons. destruct (decide (P x)); [|auto].
  simpl. apply NoDup_cons. split; [|auto].
  intros Hin. apply Hx.
  apply list_elem_of_In, in_map_iff in Hin as (y & Heq & Hin).
  apply list_elem_of_In, in_map_iff. exists y. split; [exact Heq|].
  apply list_elem_of_In in Hin. apply list_elem_of_filter in Hin as [_ Hin].
  apply list_elem_of_In. exact Hin.
Qed.

(** X23. The keys of the bookings stay pairwise distinct through every
    booking request and every organiser request. *)
Theorem booking_keys_distinct d :
  NoDup (map booking_id (bookings d)) ->
  (forall now eventId body,
     NoDup (map booking_id (bookings (book now eventId body d).2))) /\
  (forall now r s,
     NoDup (map booking_id (bookings (Organiser.route now r s d).2))).
Proof.
  intros Hnd. split.
  - intros now eventId body.
    destruct (book_cases now eventId body d) as [(ev & bk & Hr)|[-> _]];
      [|exact Hnd].
    destruct (book now eventId body d) as [r d'] eqn:Hbook.
    simpl in Hr |- *. subst r.
    destruct (book_success _ _ _ _ _ _ _ Hbook)
      as (who & e & _ & _ & _ & _ & _ & _ & _ & _ & _ & ->).
    simpl. rewrite map_app. simpl. apply NoDup_app. split; [exact Hnd|].
    split; [|apply NoDup_singleton].
    intros x Hx Hin. apply list_elem_of_singleton in Hin. subst x.
    apply next_rowid_fresh with (seq := bookings_seq d) in Hx. lia.
  - intros now r s. unfold Organiser.route.
    destruct (requireAuth_cases s d (Organiser.handler now r s d))
      as [-> | ->]; [|exact Hnd].
    destruct r as [u| |bd| |bd|i|i bd|i|i]; simpl; try exact Hnd.
    + unfold Organiser.settings_handler.
      destruct (Organiser.SettingsBody.site_name bd) as [[|? ?]|];
        destruct (Organiser.SettingsBody.site_description bd) as [[|? ?]|];
        exact Hnd.
    + unfold Organiser.create_event_handler.
      destruct (Organiser.event_params bd) as [params|]; [|exact Hnd].
      destruct (match Organiser.organiserId s with
                | Some k0 => bool_decide (is_Some (organisers d !! k0))
                | None => true
                end); exact Hnd.
    + unfold Organiser.edit_event_handler.
      destruct (Organiser.event_params bd) as [params|]; exact Hnd.
    + unfold Organiser.delete_event.
      destruct (events d !! i); [|exact Hnd].
      simpl. apply NoDup_map_filter. exact Hnd.
Qed.

Lemma booking_keys_distinct_witness :
  (forall now eventId body,
     NoDup (map booking_id
              (bookings (book now eventId body (schema_db t0)).2))) /\
  (forall now r s,
     NoDup (map booking_id
              (bookings (Organiser.route now r s (schema_db t0)).2))).
Proof.
  apply (booking_keys_distinct (schema_db t0)).
  simpl. apply NoDup_cons. split; [|apply NoDup_singleton].
  intros Hin. apply list_elem_of_singleton in Hin. discriminate Hin.
Defined.

End Counts.
